(** * SnipAI: clipboard capture, reply parsing, edit history and paste-back

    A shallow embedding of the core of the SnipAI sources
    ([clipboard_handler.py], [llm_service.py], [chat_window.py]) together
    with the properties established about it.

    Conventions.
    - Python [str] values are modelled by [string] (byte strings); on ASCII
      text both agree, including [len].
    - Calls that leave the process (clipboard, simulated keyboard, window
      manager, timers) go through one state-and-exception monad [M] over the
      record [Sys]; whether such a call raises, and how foreign applications
      change the clipboard in reaction to simulated input, is decided by an
      arbitrary environment [Env], so every theorem holds for all of them.
    - [time.sleep] takes milliseconds, a timer seconds. Logging is not
      modelled. *)

From Stdlib Require Import String Ascii List Bool Arith NArith ZArith Lia.
Import ListNotations.
Open Scope string_scope.

(* ================================================================== *)
(** * Python [str] methods                                             *)
(* ================================================================== *)

Module Str.

Definition nl : string := String "010" "".
Definition dquote : string := String "034" "".

(** [str.isspace] on one character, which is also the class [\s] of
    [re]: tab to carriage return, the four separators and the space. *)
Definition is_space (c : ascii) : bool :=
  let n := nat_of_ascii c in
  (((9 <=? n) && (n <=? 13)) || ((28 <=? n) && (n <=? 32)))%nat.

Fixpoint lstrip (s : string) : string :=
  match s with
  | String c s' => if is_space c then lstrip s' else s
  | EmptyString => EmptyString
  end.

Fixpoint rstrip (s : string) : string :=
  match s with
  | EmptyString => EmptyString
  | String c s' =>
      match rstrip s' with
      | EmptyString => if is_space c then EmptyString else String c EmptyString
      | r => String c r
      end
  end.

Definition strip (s : string) : string := rstrip (lstrip s).

Definition lower_char (c : ascii) : ascii :=
  let n := nat_of_ascii c in
  if ((65 <=? n) && (n <=? 90))%nat then ascii_of_nat (n + 32) else c.

Definition upper_char (c : ascii) : ascii :=
  let n := nat_of_ascii c in
  if ((97 <=? n) && (n <=? 122))%nat then ascii_of_nat (n - 32) else c.

Fixpoint lower (s : string) : string :=
  match s with
  | EmptyString => EmptyString
  | String c s' => String (lower_char c) (lower s')
  end.

Definition capitalize (s : string) : string :=
  match s with
  | EmptyString => EmptyString
  | String c s' => String (upper_char c) (lower s')
  end.

Definition startswith (s p : string) : bool := prefix p s.

(** [needle in hay]. *)
Fixpoint contains (needle hay : string) : bool :=
  if prefix needle hay then true
  else match hay with
       | EmptyString => false
       | String _ hay' => contains needle hay'
       end.

(** [s.replace(old, new)] for a one-character [old]. *)
Fixpoint replace (old : ascii) (new : string) (s : string) : string :=
  match s with
  | EmptyString => EmptyString
  | String c s' =>
      if Ascii.eqb c old then new ++ replace old new s'
      else String c (replace old new s')
  end.

(** [s.split(sep, 1)] for a one-character [sep]: the part before the first
    separator and, when there is one, the part after it. *)
Fixpoint split1 (sep : ascii) (s : string) : string * option string :=
  match s with
  | EmptyString => (EmptyString, None)
  | String c s' =>
      if Ascii.eqb c sep then (EmptyString, Some s')
      else let (a, b) := split1 sep s' in (String c a, b)
  end.

(** [s[:n]]. *)
Definition take (n : nat) (s : string) : string := substring 0 n s.

(** Truth value of a string. *)
Definition truthy (s : string) : bool := negb (s =? "").

(** A continuation byte of UTF-8: [10xxxxxx]. *)
Definition is_continuation (c : ascii) : bool :=
  let n := nat_of_ascii c in ((128 <=? n) && (n <? 192))%nat.

(** [len(s)], the number of code points of [s]. Text is held here in UTF-8,
    where each code point has exactly one byte that is not a continuation
    byte; on ASCII text this is the number of bytes. *)
Fixpoint len (s : string) : nat :=
  match s with
  | EmptyString => 0
  | String c s' => if is_continuation c then len s' else S (len s')
  end.

End Str.

(* ================================================================== *)
(** * The part of [re] that the sources use                            *)
(* ================================================================== *)

Module Re.

(** Patterns: literals, [.] (under DOTALL), [\s], concatenation, greedy
    and lazy [*], and the capturing group 1. *)
Inductive regex : Type :=
| Eps
| Chr (c : ascii)
| Dot
| Space
| Cat (r1 r2 : regex)
| Star (greedy : bool) (r : regex)
| Group (r : regex).

Fixpoint Lit (s : string) : regex :=
  match s with
  | EmptyString => Eps
  | String c s' => Cat (Chr c) (Lit s')
  end.

(** The span of group 1, as the input left at its start and at its end. *)
Definition caps : Type := option (list ascii * list ascii).

(** Backtracking matcher in continuation style: alternatives are tried in
    the priority order of [re], the first complete match wins. An
    iteration of [*] must consume input. *)
Fixpoint run {R} (r : regex) (s : list ascii) (g : caps)
    (k : list ascii -> caps -> option R) {struct r} : option R :=
  match r with
  | Eps => k s g
  | Chr c =>
      match s with
      | x :: s' => if Ascii.eqb x c then k s' g else None
      | [] => None
      end
  | Dot =>
      match s with
      | _ :: s' => k s' g
      | [] => None
      end
  | Space =>
      match s with
      | x :: s' => if Str.is_space x then k s' g else None
      | [] => None
      end
  | Cat r1 r2 => run r1 s g (fun s' g' => run r2 s' g' k)
  | Group r1 => run r1 s g (fun s' _ => k s' (Some (s, s')))
  | Star greedy r1 =>
      (fix loop (fuel : nat) (s : list ascii) (g : caps) {struct fuel}
         : option R :=
         match fuel with
         | O => k s g
         | S fuel' =>
             if greedy then
               match run r1 s g (fun s' g' =>
                       if (length s' <? length s)%nat then loop fuel' s' g'
                       else None) with
               | Some x => Some x
               | None => k s g
               end
             else
               match k s g with
               | Some x => Some x
               | None =>
                   run r1 s g (fun s' g' =>
                     if (length s' <? length s)%nat then loop fuel' s' g'
                     else None)
               end
         end) (length s) s g
  end.

(** [re.match] at the head of [s]: the input left after the match and the
    group. *)
Definition match_at (r : regex) (s : list ascii)
  : option (list ascii * caps) :=
  run r s None (fun s' g => Some (s', g)).

Record Match : Type := mkMatch {
  before : list ascii;      (* the text in front of the match *)
  after : list ascii;       (* the text behind it *)
  group1 : list ascii       (* [m.group(1)] *)
}.

Definition group_text (g : caps) : list ascii :=
  match g with
  | Some (opening, closing) =>
      firstn (length opening - length closing) opening
  | None => []
  end.

Fixpoint search_from (r : regex) (skipped : list ascii) (s : list ascii)
  : option Match :=
  match match_at r s with
  | Some (rest, g) => Some (mkMatch (rev skipped) rest (group_text g))
  | None =>
      match s with
      | [] => None
      | c :: s' => search_from r (c :: skipped) s'
      end
  end.

(** [re.search(r, s)]: the leftmost match. *)
Definition search (r : regex) (s : string) : option Match :=
  search_from r [] (list_ascii_of_string s).

(** [re.sub(r, repl, s)]: every non-overlapping match, from the left, is
    replaced. *)
Fixpoint sub_from (fuel : nat) (r : regex) (repl : list ascii)
    (s : list ascii) : list ascii :=
  match fuel with
  | O => s
  | S fuel' =>
      match match_at r s with
      | Some (rest, _) =>
          if (length rest <? length s)%nat
          then repl ++ sub_from fuel' r repl rest
          else match s with
               | [] => repl
               | c :: s' => repl ++ c :: sub_from fuel' r repl s'
               end
      | None =>
          match s with
          | [] => []
          | c :: s' => c :: sub_from fuel' r repl s'
          end
      end
  end.

Definition sub (r : regex) (repl : string) (s : string) : string :=
  string_of_list_ascii
    (sub_from (S (String.length s)) r (list_ascii_of_string repl)
              (list_ascii_of_string s)).

End Re.

(* ================================================================== *)
(** * [json.loads]                                                     *)
(* ================================================================== *)

Module Json.

#[warnings="-register-all"]
Inductive value : Type :=
| Null
| Bool (b : bool)
| Number (lexeme : string)
| Str (s : string)
| Array (items : list value)
| Object (members : list (string * value)).

Definition is_ws (c : ascii) : bool :=
  let n := nat_of_ascii c in
  ((n =? 32) || (n =? 9) || (n =? 10) || (n =? 13))%nat.

Fixpoint skip_ws (s : list ascii) : list ascii :=
  match s with
  | c :: s' => if is_ws c then skip_ws s' else s
  | [] => []
  end.

Definition is_digit (c : ascii) : bool :=
  let n := nat_of_ascii c in ((48 <=? n) && (n <=? 57))%nat.

(** The longest run of digits at the head of [s], and what follows. *)
Fixpoint digits (s : list ascii) : list ascii * list ascii :=
  match s with
  | c :: s' =>
      if is_digit c then let (d, r) := digits s' in (c :: d, r) else ([], s)
  | [] => ([], [])
  end.

Definition hex_digit (c : ascii) : option N :=
  let n := N_of_ascii c in
  if ((48 <=? n) && (n <=? 57))%N then Some (n - 48)%N
  else if ((97 <=? n) && (n <=? 102))%N then Some (n - 87)%N
  else if ((65 <=? n) && (n <=? 70))%N then Some (n - 55)%N
  else None.

Definition hex4 (s : list ascii) : option (N * list ascii) :=
  match s with
  | a :: b :: c :: d :: rest =>
      match hex_digit a, hex_digit b, hex_digit c, hex_digit d with
      | Some x, Some y, Some z, Some w =>
          Some (((x * 16 + y) * 16 + z) * 16 + w, rest)%N
      | _, _, _, _ => None
      end
  | _ => None
  end.

(** A code point as the bytes that stand for it in the text. *)
Definition utf8 (n : N) : list ascii :=
  (if n <? 128 then [ascii_of_N n]
   else if n <? 2048 then
     [ascii_of_N (192 + n / 64); ascii_of_N (128 + n mod 64)]
   else if n <? 65536 then
     [ascii_of_N (224 + n / 4096); ascii_of_N (128 + (n / 64) mod 64);
      ascii_of_N (128 + n mod 64)]
   else
     [ascii_of_N (240 + n / 262144); ascii_of_N (128 + (n / 4096) mod 64);
      ascii_of_N (128 + (n / 64) mod 64); ascii_of_N (128 + n mod 64)])%N.

Definition unescape (c : ascii) : option ascii :=
  match nat_of_ascii c with
  | 34 => Some "034"%char     (* quote *)
  | 92 => Some "092"%char     (* backslash *)
  | 47 => Some "/"%char
  | 98 => Some "008"%char     (* b *)
  | 102 => Some "012"%char    (* f *)
  | 110 => Some "010"%char    (* n *)
  | 114 => Some "013"%char    (* r *)
  | 116 => Some "009"%char    (* t *)
  | _ => None
  end.

(** The body of a string literal, after its opening quote; [acc] holds the
    characters read so far, last first. *)
Fixpoint scan_string (fuel : nat) (s acc : list ascii)
  : option (string * list ascii) :=
  match fuel with
  | O => None
  | S fuel' =>
      match s with
      | [] => None
      | c :: s' =>
          if Ascii.eqb c "034" then Some (string_of_list_ascii (rev acc), s')
          else if Ascii.eqb c "092" then
            match s' with
            | [] => None
            | e :: s'' =>
                if Ascii.eqb e "u" then
                  match hex4 s'' with
                  | None => None
                  | Some (hi, s3) =>
                      if ((55296 <=? hi) && (hi <=? 56319))%N then
                        match s3 with
                        | b :: u :: s4 =>
                            if Ascii.eqb b "092" && Ascii.eqb u "u" then
                              match hex4 s4 with
                              | None => None
                              | Some (lo, s5) =>
                                  if ((56320 <=? lo) && (lo <=? 57343))%N
                                  then scan_string fuel' s5
                                         (rev (utf8 (65536 + (hi - 55296) * 1024
                                                     + (lo - 56320))%N) ++ acc)
                                  else scan_string fuel' s3 (rev (utf8 hi) ++ acc)
                              end
                            else scan_string fuel' s3 (rev (utf8 hi) ++ acc)
                        | _ => scan_string fuel' s3 (rev (utf8 hi) ++ acc)
                        end
                      else scan_string fuel' s3 (rev (utf8 hi) ++ acc)
                  end
                else
                  match unescape e with
                  | Some x => scan_string fuel' s'' (x :: acc)
                  | None => None
                  end
            end
          else if (nat_of_ascii c <? 32)%nat then None
          else scan_string fuel' s' (c :: acc)
      end
  end.

(** A number at the head of [s]: sign, integer part, and the optional
    fraction and exponent when they are complete. *)
Definition scan_number (s : list ascii) : option (string * list ascii) :=
  let (sign, s1) :=
    match s with
    | c :: s' => if Ascii.eqb c "-" then ([c], s') else ([], s)
    | [] => ([], s)
    end in
  match s1 with
  | [] => None
  | c :: s2 =>
      if negb (is_digit c) then None else
      let (int, s3) :=
        if Ascii.eqb c "0" then ([c], s2)
        else let (d, r) := digits s2 in (c :: d, r) in
      let (frac, s4) :=
        match s3 with
        | p :: s' =>
            if Ascii.eqb p "." then
              match digits s' with
              | ([], _) => ([], s3)
              | (d, r) => (p :: d, r)
              end
            else ([], s3)
        | [] => ([], s3)
        end in
      let (exp, s5) :=
        match s4 with
        | e :: s' =>
            if Ascii.eqb e "e" || Ascii.eqb e "E" then
              let (sg, s'') :=
                match s' with
                | x :: t =>
                    if Ascii.eqb x "+" || Ascii.eqb x "-" then ([x], t)
                    else ([], s')
                | [] => ([], s')
                end in
              match digits s'' with
              | ([], _) => ([], s4)
              | (d, r) => (e :: sg ++ d, r)
              end
            else ([], s4)
        | [] => ([], s4)
        end in
      Some (string_of_list_ascii (sign ++ int ++ frac ++ exp), s5)
  end.

(** [s] starts with the characters of [w]: what follows them. *)
Fixpoint word (w : list ascii) (s : list ascii) : option (list ascii) :=
  match w, s with
  | [], _ => Some s
  | x :: w', y :: s' => if Ascii.eqb x y then word w' s' else None
  | _ :: _, [] => None
  end.

Definition keyword (w : string) (v : value) (s : list ascii)
  : option (value * list ascii) :=
  match word (list_ascii_of_string w) s with
  | Some rest => Some (v, rest)
  | None => None
  end.

Definition first_some {A} (a b : option A) : option A :=
  match a with Some _ => a | None => b end.

(** The decoder proper. [scan_members] and [scan_items] start on the first
    character of a member or an item; [None] is a [JSONDecodeError]. *)
Fixpoint scan_value (fuel : nat) (s : list ascii)
  : option (value * list ascii) :=
  match fuel with
  | O => None
  | S fuel' =>
      match s with
      | [] => None
      | c :: s' =>
          if Ascii.eqb c "034" then
            match scan_string (S (length s')) s' [] with
            | Some (t, rest) => Some (Str t, rest)
            | None => None
            end
          else if Ascii.eqb c "{" then
            match skip_ws s' with
            | x :: rest =>
                if Ascii.eqb x "}" then Some (Object [], rest)
                else scan_members fuel' (x :: rest) []
            | [] => None
            end
          else if Ascii.eqb c "[" then
            match skip_ws s' with
            | x :: rest =>
                if Ascii.eqb x "]" then Some (Array [], rest)
                else scan_items fuel' (x :: rest) []
            | [] => None
            end
          else
            first_some (keyword "null" Null s)
            (first_some (keyword "true" (Bool true) s)
            (first_some (keyword "false" (Bool false) s)
            (first_some (keyword "NaN" (Number "NaN") s)
            (first_some (keyword "Infinity" (Number "Infinity") s)
            (first_some (keyword "-Infinity" (Number "-Infinity") s)
            (match scan_number s with
             | Some (n, rest) => Some (Number n, rest)
             | None => None
             end))))))
      end
  end
with scan_members (fuel : nat) (s : list ascii) (acc : list (string * value))
  : option (value * list ascii) :=
  match fuel with
  | O => None
  | S fuel' =>
      match s with
      | q :: s1 =>
          if negb (Ascii.eqb q "034") then None else
          match scan_string (S (length s1)) s1 [] with
          | None => None
          | Some (key, s2) =>
              match skip_ws s2 with
              | colon :: s3 =>
                  if negb (Ascii.eqb colon ":") then None else
                  match scan_value fuel' (skip_ws s3) with
                  | None => None
                  | Some (v, s4) =>
                      match skip_ws s4 with
                      | d :: s5 =>
                          if Ascii.eqb d "}"
                          then Some (Object (rev ((key, v) :: acc)), s5)
                          else if Ascii.eqb d ","
                          then scan_members fuel' (skip_ws s5) ((key, v) :: acc)
                          else None
                      | [] => None
                      end
                  end
              | [] => None
              end
          end
      | [] => None
      end
  end
with scan_items (fuel : nat) (s : list ascii) (acc : list value)
  : option (value * list ascii) :=
  match fuel with
  | O => None
  | S fuel' =>
      match scan_value fuel' s with
      | None => None
      | Some (v, s1) =>
          match skip_ws s1 with
          | d :: s2 =>
              if Ascii.eqb d "]" then Some (Array (rev (v :: acc)), s2)
              else if Ascii.eqb d ","
              then scan_items fuel' (skip_ws s2) (v :: acc)
              else None
          | [] => None
          end
      end
  end.

(** [json.loads(s)]: one value, with white space around it and nothing
    else. *)
Definition loads (s : string) : option value :=
  let l := list_ascii_of_string s in
  match scan_value (2 * length l + 2) (skip_ws l) with
  | Some (v, rest) =>
      match skip_ws rest with
      | [] => Some v
      | _ :: _ => None
      end
  | None => None
  end.

(** [data[key]] on a decoded object, where a repeated key keeps its last
    value; [None] when [key not in data]. *)
Fixpoint lookup (key : string) (members : list (string * value))
  : option value :=
  match members with
  | [] => None
  | (k, v) :: rest =>
      match lookup key rest with
      | Some v' => Some v'
      | None => if k =? key then Some v else None
      end
  end.

(** [len(v)], [None] standing for the [TypeError] of values without
    length. *)
Definition len (v : value) : option nat :=
  match v with
  | Str s => Some (Str.len s)
  | Array items => Some (length items)
  | Object members => Some (length members)
  | Null | Bool _ | Number _ => None
  end.

End Json.

(* ================================================================== *)
(** * Python runtime: results, external calls, the effect monad        *)
(* ================================================================== *)

Module Py.

(** Outcome of evaluating a Python expression: a value, or an exception
    carrying its [str(e)]. *)
Inductive Result (A : Type) : Type :=
| Ok (a : A)
| Raised (e : string).
Arguments Ok {A} a.
Arguments Raised {A} e.

(** A window handle as returned by [pygetwindow]. *)
Definition Window := nat.

(** The calls that leave the process. *)
Inductive Call : Type :=
| PyperclipPaste
| PyperclipCopy (text : string)
| KeyboardPress (key : string)
| KeyboardRelease (key : string)
| KeyboardPressAndRelease (key : string)
| TimeSleep (ms : nat)
| GetActiveWindow
| Activate (w : Window)
| TimerStart (seconds : nat) (text_content original_content : string)
| FlashPasteButton (message : string)
| FlashPasteButtonReady (message : string).

(** What the process can observe and change outside its own objects, plus
    the module global of [clipboard_handler.py]. [timers] holds the pending
    [restore_clipboard] closures as their captured variables
    [(text_content, original_content)]; [trace] lists the calls made so far,
    most recent first. *)
Record Sys : Type := mkSys {
  clipboard : string;
  foreground : option Window;
  timers : list (string * string);
  trace : list Call;
  _original_clipboard : option string
}.

Definition set_clipboard (c : string) (s : Sys) : Sys :=
  mkSys c (foreground s) (timers s) (trace s) (_original_clipboard s).
Definition set_foreground (w : option Window) (s : Sys) : Sys :=
  mkSys (clipboard s) w (timers s) (trace s) (_original_clipboard s).
Definition add_timer (t : string * string) (s : Sys) : Sys :=
  mkSys (clipboard s) (foreground s) (timers s ++ [t]) (trace s)
        (_original_clipboard s).
Definition set_timers (t : list (string * string)) (s : Sys) : Sys :=
  mkSys (clipboard s) (foreground s) t (trace s) (_original_clipboard s).
Definition log (c : Call) (s : Sys) : Sys :=
  mkSys (clipboard s) (foreground s) (timers s) (c :: trace s)
        (_original_clipboard s).
Definition set_original (o : option string) (s : Sys) : Sys :=
  mkSys (clipboard s) (foreground s) (timers s) (trace s) o.

(** The environment: [raises c s] is [Some e] when call [c], made in state
    [s], raises an exception whose text is [e]; [reacts c s] is the clipboard
    content once the other applications have processed the simulated input
    or the time that [c] stands for. Both see the whole state, [trace]
    included, so they may differ from one call to the next. *)
Record Env : Type := mkEnv {
  raises : Call -> Sys -> option string;
  reacts : Call -> Sys -> string
}.

Definition M (A : Type) : Type := Sys -> Result A * Sys.

Definition ret {A} (a : A) : M A := fun s => (Ok a, s).

Definition bind {A B} (m : M A) (f : A -> M B) : M B :=
  fun s => match m s with
           | (Ok a, s') => f a s'
           | (Raised e, s') => (Raised e, s')
           end.

Definition try_except {A} (body : M A) (handler : string -> M A) : M A :=
  fun s => match body s with
           | (Ok a, s') => (Ok a, s')
           | (Raised e, s') => handler e s'
           end.

Definition try_finally {A} (body : M A) (final : M unit) : M A :=
  fun s => let (r, s') := body s in
           match final s' with
           | (Ok _, s'') => (r, s'')
           | (Raised e, s'') => (Raised e, s'')
           end.

Definition gets {A} (f : Sys -> A) : M A := fun s => (Ok (f s), s).
Definition modify (f : Sys -> Sys) : M unit := fun s => (Ok tt, f s).

(** [m] leaves the component [proj] of the state as it found it. *)
Definition keeps {X A} (proj : Sys -> X) (m : M A) : Prop :=
  forall s, proj (snd (m s)) = proj s.

(** [m] ends in [True] or leaves the timers alone. *)
Definition true_or_idle (m : M bool) : Prop :=
  forall s, fst (m s) = Ok true \/ timers (snd (m s)) = timers s.

Declare Scope py_scope.
Delimit Scope py_scope with py.
Notation "x <- m ;; k" := (bind m (fun x => k))
  (at level 61, m at next level, right associativity) : py_scope.
Notation "m ;; k" := (bind m (fun _ => k))
  (at level 61, right associativity) : py_scope.

Section Calls.
Variable env : Env.

(** [pyperclip.paste()]: the clipboard text, unless the access fails. *)
Definition pyperclip_paste : M string :=
  fun s => match raises env PyperclipPaste s with
           | Some e => (Raised e, log PyperclipPaste s)
           | None => (Ok (clipboard s), log PyperclipPaste s)
           end.

(** [pyperclip.copy(text)]: a failing write leaves the clipboard as it
    was. *)
Definition pyperclip_copy (text : string) : M unit :=
  fun s => match raises env (PyperclipCopy text) s with
           | Some e => (Raised e, log (PyperclipCopy text) s)
           | None => (Ok tt, log (PyperclipCopy text) (set_clipboard text s))
           end.

(** Simulated input and waiting: the other applications react, whether or
    not the call itself then raises. *)
Definition interact (c : Call) : M unit :=
  fun s => let s' := log c (set_clipboard (reacts env c s) s) in
           match raises env c s with
           | Some e => (Raised e, s')
           | None => (Ok tt, s')
           end.

Definition keyboard_press (key : string) := interact (KeyboardPress key).
Definition keyboard_release (key : string) := interact (KeyboardRelease key).
Definition keyboard_press_and_release (key : string) :=
  interact (KeyboardPressAndRelease key).
Definition time_sleep (ms : nat) := interact (TimeSleep ms).

(** [gw.getActiveWindow()] (with the import that precedes it). *)
Definition getActiveWindow : M (option Window) :=
  fun s => match raises env GetActiveWindow s with
           | Some e => (Raised e, log GetActiveWindow s)
           | None => (Ok (foreground s), log GetActiveWindow s)
           end.

(** [window.activate()]. *)
Definition activate (w : Window) : M unit :=
  fun s => let s' := log (Activate w) (set_clipboard (reacts env (Activate w) s) s) in
           match raises env (Activate w) s with
           | Some e => (Raised e, s')
           | None => (Ok tt, set_foreground (Some w) s')
           end.

(** [threading.Timer(seconds, restore_clipboard).start()], the closure given
    by the two variables it captures. *)
Definition Timer_start (seconds : nat) (text_content original_content : string)
  : M unit :=
  fun s => let c := TimerStart seconds text_content original_content in
           match raises env c s with
           | Some e => (Raised e, log c s)
           | None => (Ok tt, log c (add_timer (text_content, original_content) s))
           end.

(** [self._flash_paste_button_success(message)]: presentation only. *)
Definition _flash_paste_button_success (message : string) : M unit :=
  fun s => let c := FlashPasteButton message in
           match raises env c s with
           | Some e => (Raised e, log c s)
           | None => (Ok tt, log c s)
           end.

(** [self._flash_paste_button_ready(message)]: presentation only. *)
Definition _flash_paste_button_ready (message : string) : M unit :=
fun s => let c := FlashPasteButtonReady message in
         match raises env c s with
         | Some e => (Raised e, log c s)
         | None => (Ok tt, log c s)
         end.
End Calls.

End Py.
Import Py.
Open Scope py_scope.

(* ================================================================== *)
(** * clipboard_handler.py                                             *)
(* ================================================================== *)

Module ClipboardHandler.
Section WithEnv.
Variable env : Env.

Definition _save_clipboard : M (option string) :=
  try_except
    (c <- pyperclip_paste env ;;
     modify (set_original (Some c)) ;;
     ret (Some c))
    (fun _ => modify (set_original None) ;; ret None).

Definition _restore_clipboard : M unit :=
  saved <- gets _original_clipboard ;;
  match saved with
  | Some c =>
      try_except (pyperclip_copy env c) (fun _ => ret tt) ;;
      modify (set_original None)
  | None => ret tt
  end.

(** The three copy strategies, in the order of the list [methods]. *)
Definition methods : list (M unit) :=
  [ keyboard_press_and_release env "ctrl+c";
    (keyboard_press env "ctrl" ;; time_sleep env 100 ;;
     keyboard_press env "c" ;; time_sleep env 100 ;;
     keyboard_release env "c" ;; time_sleep env 100 ;;
     keyboard_release env "ctrl");
    (keyboard_press_and_release env "ctrl+c" ;; time_sleep env 500) ].

(** [current_content and current_content != original_content], where
    [original_content] is [None] when the clipboard could not be saved. *)
Definition copied (current_content : string) (original_content : option string)
  : bool :=
  negb (current_content =? "") &&
  match original_content with
  | Some o => negb (current_content =? o)
  | None => true
  end.

(** The [for i, method in enumerate(methods)] loop; its value is
    [selected_text] when the loop is left. *)
Fixpoint try_methods (original_content : option string) (ms : list (M unit))
  : M (option string) :=
  match ms with
  | [] => ret None
  | method :: rest =>
      method ;;
      time_sleep env 300 ;;
      current_content <- pyperclip_paste env ;;
      if copied current_content original_content
      then ret (Some current_content)
      else try_methods original_content rest
  end.

(** One pass of the loop body, up to and including the reading of the
    clipboard. *)
Definition attempt (method : M unit) : M string :=
  method ;; time_sleep env 300 ;; pyperclip_paste env.

(** What the clipboard reads after each strategy, taken in order from
    state [s], up to the first strategy that raises. *)
Fixpoint readings (ms : list (M unit)) (s : Sys) : list (Result string) :=
  match ms with
  | [] => []
  | method :: rest =>
      match attempt method s with
      | (Ok c, s') => Ok c :: readings rest s'
      | (Raised e, _) => [Raised e]
      end
  end.

Definition get_selected_text_via_copy : M (option string) :=
  try_finally
    (original_content <- _save_clipboard ;;
     try_except (try_methods original_content methods)
                (fun _ => ret None))
    _restore_clipboard.

End WithEnv.
End ClipboardHandler.

(* ================================================================== *)
(** * llm_service.py                                                   *)
(* ================================================================== *)

Module LlmService.

(** The key terms looked for in the lower-cased text of an exception. *)
Definition mentions_auth (error_str : string) : bool :=
  Str.contains "api key" error_str || Str.contains "authentication" error_str
  || Str.contains "unauthorized" error_str || Str.contains "auth" error_str.

Definition mentions_connection (error_str : string) : bool :=
  Str.contains "timeout" error_str || Str.contains "connection" error_str
  || Str.contains "network" error_str.

Definition mentions_no_response (error_str : string) : bool :=
  Str.contains "no response" error_str.

(** The text returned for an exception caught in [invoke_chain]. *)
Definition error_reply (e : string) : string :=
  let error_str := Str.lower e in
  if mentions_auth error_str
  then "API_KEY_ERROR: Your API key appears to be invalid or has expired. Please check your API key in the settings."
  else if mentions_connection error_str
  then "CONNECTION_ERROR: Unable to connect to the LLM service. Please check your internet connection."
  else if mentions_no_response error_str
  then "NO_RESPONSE_ERROR: No response received from the LLM service. The service might be experiencing high load."
  else "ERROR: " ++ e ++ Str.nl ++ Str.nl ++ "Please try again in a moment.".

(** [invoke_chain], given what [self.chain.invoke] does with the input: it
    returns a reply or raises. The conversation memory is not modelled. *)
Definition invoke_chain (chain : string -> Result string) (user_input : string)
  : string :=
  let body :=
    match chain user_input with
    | Ok ai_response =>
        if negb (Str.truthy ai_response) || (Str.strip ai_response =? "")
        then Raised "No response received from LLM service"
        else Ok ai_response
    | Raised e => Raised e
    end in
  match body with
  | Ok ai_response => ai_response
  | Raised e => error_reply e
  end.

End LlmService.

(* ================================================================== *)
(** * chat_window.py                                                   *)
(* ================================================================== *)

Module ChatWindow.

Inductive WidgetState : Type := normal | disabled.

Definition WidgetState_eqb (a b : WidgetState) : bool :=
  match a, b with
  | normal, normal | disabled, disabled => true
  | _, _ => false
  end.

(** A started worker thread, by its target and argument. *)
Inductive Job : Type :=
| get_initial_response (user_text : string)
| get_ai_response (user_text : string).

(** The attributes of a [ChatWindow] that the modelled methods read or
    write. [chat_display] is the text widget as the list of inserted
    messages, each with its tag (the role) and its text, prefix included.
    [workers] are the threads started by the window whose result has not been
    handed back yet. *)
Record t : Type := mk {
  initial_text : string;
  text_stack : list string;
  enhanced_content : option string;
  source_window : option Window;
  chat_display : list (string * string);
  user_input : string;
  user_input_state : WidgetState;
  send_button_state : WidgetState;
  paste_frame_shown : bool;
  paste_preview : string;
  undo_button_state : WidgetState;
  workers : list Job
}.

Definition set_text_stack v (w : t) : t :=
  mk (initial_text w) v (enhanced_content w) (source_window w) (chat_display w)
     (user_input w) (user_input_state w) (send_button_state w)
     (paste_frame_shown w) (paste_preview w) (undo_button_state w) (workers w).
Definition set_enhanced_content v (w : t) : t :=
  mk (initial_text w) (text_stack w) v (source_window w) (chat_display w)
     (user_input w) (user_input_state w) (send_button_state w)
     (paste_frame_shown w) (paste_preview w) (undo_button_state w) (workers w).
Definition set_chat_display v (w : t) : t :=
  mk (initial_text w) (text_stack w) (enhanced_content w) (source_window w) v
     (user_input w) (user_input_state w) (send_button_state w)
     (paste_frame_shown w) (paste_preview w) (undo_button_state w) (workers w).
Definition set_user_input v (w : t) : t :=
  mk (initial_text w) (text_stack w) (enhanced_content w) (source_window w)
     (chat_display w) v (user_input_state w) (send_button_state w)
     (paste_frame_shown w) (paste_preview w) (undo_button_state w) (workers w).
Definition set_user_input_state v (w : t) : t :=
  mk (initial_text w) (text_stack w) (enhanced_content w) (source_window w)
     (chat_display w) (user_input w) v (send_button_state w)
     (paste_frame_shown w) (paste_preview w) (undo_button_state w) (workers w).
Definition set_send_button_state v (w : t) : t :=
  mk (initial_text w) (text_stack w) (enhanced_content w) (source_window w)
     (chat_display w) (user_input w) (user_input_state w) v
     (paste_frame_shown w) (paste_preview w) (undo_button_state w) (workers w).
Definition set_paste_frame_shown v (w : t) : t :=
  mk (initial_text w) (text_stack w) (enhanced_content w) (source_window w)
     (chat_display w) (user_input w) (user_input_state w) (send_button_state w)
     v (paste_preview w) (undo_button_state w) (workers w).
Definition set_paste_preview v (w : t) : t :=
  mk (initial_text w) (text_stack w) (enhanced_content w) (source_window w)
     (chat_display w) (user_input w) (user_input_state w) (send_button_state w)
     (paste_frame_shown w) v (undo_button_state w) (workers w).
Definition set_undo_button_state v (w : t) : t :=
  mk (initial_text w) (text_stack w) (enhanced_content w) (source_window w)
     (chat_display w) (user_input w) (user_input_state w) (send_button_state w)
     (paste_frame_shown w) (paste_preview w) v (workers w).
Definition set_workers v (w : t) : t :=
  mk (initial_text w) (text_stack w) (enhanced_content w) (source_window w)
     (chat_display w) (user_input w) (user_input_state w) (send_button_state w)
     (paste_frame_shown w) (paste_preview w) (undo_button_state w) v.

(** [__init__]: the window as it is once constructed. *)
Definition __init__ (initial_text : string) (source_window : option Window)
  : t :=
  mk initial_text [initial_text] (Some initial_text) source_window []
     "" normal normal false "" disabled [].

(** ** The reply parser *)

(** [```json\s*({.*?"enhanced_content"\s*:.*?})\s*```] *)
Definition json_pattern : Re.regex :=
  Re.Cat (Re.Lit "```json")
 (Re.Cat (Re.Star true Re.Space)
 (Re.Cat (Re.Group
            (Re.Cat (Re.Chr "{")
            (Re.Cat (Re.Star false Re.Dot)
            (Re.Cat (Re.Lit (Str.dquote ++ "enhanced_content" ++ Str.dquote))
            (Re.Cat (Re.Star true Re.Space)
            (Re.Cat (Re.Chr ":")
            (Re.Cat (Re.Star false Re.Dot)
                    (Re.Chr "}"))))))))
 (Re.Cat (Re.Star true Re.Space)
         (Re.Lit "```")))).

(** [\n{3,}] *)
Definition newlines3 : Re.regex :=
  Re.Cat (Re.Chr "010") (Re.Cat (Re.Chr "010") (Re.Cat (Re.Chr "010")
    (Re.Star true (Re.Chr "010")))).

(** [_extract_enhanced_content(text)]: [(cleaned_text, enhanced_content)].
    Every exception of the [try] block ends in the final [return text, None]:
    a payload that does not decode, or a field value without a length in the
    logging call. *)
Definition _extract_enhanced_content (text : string)
  : string * option Json.value :=
  match Re.search json_pattern text with
  | Some matches =>
      let json_str := string_of_list_ascii (Re.group1 matches) in
      match Json.loads json_str with
      | Some (Json.Object data) =>
          match Json.lookup "enhanced_content" data with
          | Some enhanced_content =>
              match Json.len enhanced_content with
              | Some _ =>
                  let cleaned_text := Str.strip (Re.sub json_pattern "" text) in
                  let cleaned_text :=
                    Re.sub newlines3 (Str.nl ++ Str.nl) cleaned_text in
                  (cleaned_text, Some enhanced_content)
              | None => (text, None)
              end
          | None => (text, None)
          end
      | Some _ => (text, None)
      | None => (text, None)
      end
  | None => (text, None)
  end.

(** ** Widgets *)

Definition _set_input_state (state : WidgetState) (self : t) : t :=
  set_send_button_state state (set_user_input_state state self).

Definition prefix_of (role : string) : string :=
  if role =? "user" then "You: "
  else if role =? "assistant" then "AI: "
  else if role =? "error" then "Error: "
  else if role =? "status" then ""
  else if role =? "system" then "System: "
  else Str.capitalize role ++ ": ".

Definition _append_to_chat (message role : string) (self : t) : t :=
  set_chat_display (chat_display self ++ [(role, prefix_of role ++ message)]) self.

(** [_remove_last_message] deletes the last line of the display; it is
    called when that line is the one-line status message appended last. *)
Definition _remove_last_message (self : t) : t :=
  set_chat_display (removelast (chat_display self)) self.

(** [self.user_input.delete(0, 'end')]: an entry changes only in state
    [normal]. *)
Definition user_input_delete (self : t) : t :=
  match user_input_state self with
  | normal => set_user_input "" self
  | disabled => self
  end.

(** [self.chat_display.get("1.0", "end").count("AI:") == 0] *)
Definition no_reply_yet (self : t) : bool :=
  negb (existsb (fun m => Str.contains "AI:" (snd m)) (chat_display self)).

Definition Thread_start (job : Job) (self : t) : t :=
  set_workers (workers self ++ [job]) self.

(** ** Event handlers and workers *)

Definition _send_message_event (self : t) : t :=
  let user_text := Str.strip (user_input self) in
  if negb (Str.truthy user_text) then self else
  let self := user_input_delete self in
  let self := _append_to_chat user_text "user" self in
  let self := _append_to_chat "Thinking..." "status" self in
  let self := _set_input_state disabled self in
  let self := set_paste_frame_shown false self in
  let self := set_enhanced_content None self in
  if no_reply_yet self
  then Thread_start (get_initial_response user_text) self
  else Thread_start (get_ai_response user_text) self.

Definition format_instruction (subject : string) : string :=
  "If the user is requesting to enhance, modify, or transform " ++ subject
  ++ " in any way," ++ Str.nl
  ++ "include a JSON block with the enhanced content in the following format:"
  ++ Str.nl ++ "```json" ++ Str.nl
  ++ "{" ++ Str.dquote ++ "enhanced_content" ++ Str.dquote ++ ": "
  ++ Str.dquote ++ "The enhanced text goes here" ++ Str.dquote ++ "}" ++ Str.nl
  ++ "```" ++ Str.nl
  ++ "Only include this JSON block if the user explicitly asks for text enhancement, rewriting, etc.".

(** The workers, as the arguments they pass to [_update_gui_from_thread]
    through [self.after]. The conversation memory, which the first worker
    clears, is not modelled; [invoke_chain] and the parser raise nothing, so
    the [except] branch of the workers is not reached. *)
Definition _get_initial_response (self : t) (chain : string -> Result string)
    (user_text : string) : string * string * option Json.value :=
  let initial_prompt :=
    "Selected text:" ++ Str.nl ++ "```" ++ Str.nl ++ initial_text self ++ Str.nl
    ++ "```" ++ Str.nl ++ "User question: " ++ user_text ++ Str.nl ++ Str.nl
    ++ format_instruction "the text" in
  let ai_response := LlmService.invoke_chain chain initial_prompt in
  let (cleaned_text, enhanced_content) := _extract_enhanced_content ai_response in
  (cleaned_text, "assistant", enhanced_content).

Definition _get_ai_response (self : t) (chain : string -> Result string)
    (user_text : string) : string * string * option Json.value :=
  let full_prompt := user_text ++ Str.nl ++ Str.nl ++ format_instruction "text" in
  let ai_response := LlmService.invoke_chain chain full_prompt in
  let (cleaned_text, enhanced_content) := _extract_enhanced_content ai_response in
  (cleaned_text, "assistant", enhanced_content).

Definition run_job (self : t) (chain : string -> Result string) (job : Job)
  : string * string * option Json.value :=
  match job with
  | get_initial_response user_text => _get_initial_response self chain user_text
  | get_ai_response user_text => _get_ai_response self chain user_text
  end.

Definition _update_paste_preview (self : t) : M t :=
  match enhanced_content self with
  | Some content =>
      let preview_text := Str.take 60 (Str.replace "010" " " (Str.strip content)) in
      let preview_text :=
        if (60 <? String.length content)%nat then preview_text ++ "..."
        else preview_text in
      ret (set_paste_preview ("Paste: " ++ preview_text) self)
  | None => fun s => (Raised "AttributeError", s)
  end.

Definition categorized (message : string) : bool :=
  Str.startswith message "API_KEY_ERROR:"
  || Str.startswith message "CONNECTION_ERROR:"
  || Str.startswith message "NO_RESPONSE_ERROR:".

Definition warning_sign : string := "⚠️".

Definition _update_gui_from_thread (message role : string)
    (enhanced_content_arg : option string) (self : t) : M t :=
  let self := _remove_last_message self in
  if (role =? "assistant") && categorized message then
    let (head, tail) := Str.split1 ":" message in
    let error_type := Str.replace "_" " " head in
    let error_message :=
      match tail with
      | Some rest => Str.strip rest
      | None => "Unknown error"
      end in
    let self := _append_to_chat (warning_sign ++ " " ++ error_type) "error_title" self in
    let self := _append_to_chat error_message "error" self in
    ret (_set_input_state normal self)
  else
    let self := _append_to_chat message role self in
    self <-
      match enhanced_content_arg with
      | Some new_content =>
          if Str.truthy new_content then
            let self :=
              match enhanced_content self with
              | Some current =>
                  if new_content =? current then self
                  else set_undo_button_state normal
                         (set_text_stack (text_stack self ++ [new_content]) self)
              | None =>
                  set_undo_button_state normal
                    (set_text_stack (text_stack self ++ [new_content]) self)
              end in
            let self := set_enhanced_content (Some new_content) self in
            let self := set_paste_frame_shown true self in
            _update_paste_preview self
          else ret self
      | None => ret self
      end ;;
    ret (if role =? "error" then self else _set_input_state normal self).

(** [_update_gui_from_thread] on whatever a worker hands over. Besides text
    the parser lets through the values that have a length, lists and
    objects. Such a value plays no part when the message is a categorized
    error, and when it is empty it is falsy and skipped like [None].
    Otherwise the handler appends it to [text_stack], makes it current and
    shows the paste frame, and [_update_paste_preview] then raises
    [AttributeError] on its [strip], before the inputs are enabled again.
    [text_stack] holds text only here, so the window as that exception leaves
    it is not represented. Values without a length do not leave the parser;
    of these, only a truthy one makes the handler raise, and a number is
    taken to be not zero. *)
Definition _update_gui_from_thread_any (message role : string)
    (enhanced_content : option Json.value) (self : t) : M t :=
  match enhanced_content with
  | None => _update_gui_from_thread message role None self
  | Some (Json.Str text) => _update_gui_from_thread message role (Some text) self
  | Some value =>
      if (role =? "assistant") && categorized message
      then _update_gui_from_thread message role None self
      else
        match value, Json.len value with
        | _, Some O | Json.Null, _ | Json.Bool false, _ =>
            _update_gui_from_thread message role None self
        | _, _ => fun s => (Raised "AttributeError", s)
        end
  end.

Section WithEnv.
Variable env : Env.

Fixpoint for_range (n : nat) (body : M unit) : M unit :=
  match n with
  | O => ret tt
  | S n' => body ;; for_range n' body
  end.

(** The calls made by [n] rounds of the selection loop, most recent
    first. *)
Fixpoint left_arrows (n : nat) : list Call :=
  match n with
  | O => []
  | S n' => (left_arrows n' ++ [TimeSleep 1; KeyboardPressAndRelease "left"])%list
  end.

(** The calls of a completed paste, most recent first: [source] is the
    window pasted into, [previous] the window that had the focus. *)
Definition paste_calls (text action : string) (original : string)
    (source : Window) (previous : option Window) : list Call :=
  ([TimerStart 10 text original;
    FlashPasteButton ("Content " ++ action ++ " Successfully!")]
   ++ match previous with Some window => [Activate window] | None => [] end
   ++ [TimeSleep 500; KeyboardRelease "shift"]
   ++ left_arrows (Nat.min (Str.len text) 1000)
   ++ [KeyboardPress "shift"; TimeSleep 300; KeyboardPressAndRelease "ctrl+v";
       TimeSleep 500; Activate source; GetActiveWindow;
       PyperclipCopy text; PyperclipPaste])%list.

(** The closure handed to [threading.Timer]. *)
Definition restore_clipboard (text_content original_content : string) : M unit :=
  try_except
    (current <- pyperclip_paste env ;;
     if current =? text_content then pyperclip_copy env original_content
     else ret tt)
    (fun _ => ret tt).

Definition _apply_text_to_source_window (self : t) (text_content : string)
    (action_name : string) : M bool :=
  if negb (Str.truthy text_content) then ret false else
  try_except
    (original_content <- pyperclip_paste env ;;
     pyperclip_copy env text_content ;;
     let content_length := Str.len text_content in
     match source_window self with
     | Some source =>
         try_except
           (current_window <- getActiveWindow env ;;
            activate env source ;;
            time_sleep env 500 ;;
            keyboard_press_and_release env "ctrl+v" ;;
            time_sleep env 300 ;;
            keyboard_press env "shift" ;;
            for_range (Nat.min content_length 1000)
              (keyboard_press_and_release env "left" ;; time_sleep env 1) ;;
            keyboard_release env "shift" ;;
            time_sleep env 500 ;;
            match current_window with
            | Some window => activate env window
            | None => ret tt
            end ;;
            _flash_paste_button_success env
              ("Content " ++ action_name ++ " Successfully!") ;;
            Timer_start env 10 text_content original_content ;;
            ret true)
           (fun _ => ret false)
     | None => ret false
     end)
    (fun _ => ret false).

(** [self.text_stack[-1]] *)
Definition top (self : t) : M string :=
  match rev (text_stack self) with
  | x :: _ => ret x
  | [] => fun s => (Raised "IndexError", s)
  end.

Definition _undo_action (self : t) : M t :=
  if (1 <? length (text_stack self))%nat then
    let self := set_text_stack (removelast (text_stack self)) self in
    current <- top self ;;
    let self := set_enhanced_content (Some current) self in
    self <- _update_paste_preview self ;;
    let self :=
      if (length (text_stack self) =? 1)%nat
      then set_undo_button_state disabled self else self in
    _apply_text_to_source_window self current "Undone" ;;
    ret self
  else ret self.

Definition _paste_enhanced_content (self : t) : M t :=
  match enhanced_content self with
  | Some content =>
      if negb (Str.truthy content)
      then _flash_paste_button_ready env "No content to paste!" ;; ret self
      else
        paste_successful <- _apply_text_to_source_window self content "Pasted" ;;
        if paste_successful then
          current <- top self ;;
          let self :=
            if current =? content then self
            else set_text_stack (text_stack self ++ [content]) self in
          let self :=
            if (1 <? length (text_stack self))%nat
            then set_undo_button_state normal self else self in
          _update_paste_preview self
        else ret self
  | None => _flash_paste_button_ready env "No content to paste!" ;; ret self
  end.

End WithEnv.
End ChatWindow.

(* ================================================================== *)
(** * A session: the window driven by the toolkit and its workers      *)
(* ================================================================== *)

Module Session.
Import ChatWindow.

(** What can happen to a window and its surroundings. The toolkit is
    customtkinter: an entry takes typed text only in state [normal], a
    button calls its command only in state [normal], the paste and undo
    buttons can be clicked only while their frame is shown, and the
    [<Return>] binding of the entry calls the handler whatever the state. A
    worker ends by handing the arguments of [_update_gui_from_thread] to the
    main loop; [chain] is what the model service does with its prompt. *)
Inductive Event : Type :=
| Type_text (txt : string)
| Press_return
| Click_send
| Click_paste
| Click_undo
| Worker_done (chain : string -> Result string)
| Timer_fires
| User_copies (txt : string).

Definition State : Type := ChatWindow.t * Sys.

Inductive PipelineState : Type := Idle | AwaitingResponse.

(** The pipeline awaits a response while a started worker has not handed
    its result back. *)
Definition pipeline_state (w : ChatWindow.t) : PipelineState :=
  match workers w with
  | [] => Idle
  | _ :: _ => AwaitingResponse
  end.

Definition finish (r : Result ChatWindow.t * Sys) : option State :=
  match r with
  | (Ok w, s) => Some (w, s)
  | (Raised _, _) => None
  end.

Section WithEnv.
Variable env : Env.

(** One event; [None] when it cannot happen in this state, or when its
    handler raises: the exception goes to the main loop, and the session is
    not followed further. *)
Definition dispatch (ev : Event) (st : State) : option State :=
  let (w, s) := st in
  match ev with
  | Type_text txt =>
      match user_input_state w with
      | normal => Some (set_user_input (user_input w ++ txt) w, s)
      | disabled => Some st
      end
  | Press_return => Some (_send_message_event w, s)
  | Click_send =>
      match send_button_state w with
      | normal => Some (_send_message_event w, s)
      | disabled => Some st
      end
  | Click_paste =>
      if paste_frame_shown w then finish (_paste_enhanced_content env w s)
      else Some st
  | Click_undo =>
      if paste_frame_shown w && WidgetState_eqb (undo_button_state w) normal
      then finish (_undo_action env w s)
      else Some st
  | Worker_done chain =>
      match workers w with
      | job :: rest =>
          let '(message, role, enhanced) := run_job w chain job in
          finish (_update_gui_from_thread_any message role enhanced
                    (set_workers rest w) s)
      | [] => None
      end
  | Timer_fires =>
      match timers s with
      | (text_content, original_content) :: rest =>
          Some (w, snd (restore_clipboard env text_content original_content
                          (set_timers rest s)))
      | [] => None
      end
  | User_copies txt => Some (w, set_clipboard txt s)
  end.

Fixpoint run (evs : list Event) (st : State) : option State :=
  match evs with
  | [] => Some st
  | ev :: rest =>
      match dispatch ev st with
      | Some st' => run rest st'
      | None => None
      end
  end.

End WithEnv.


(** The two turns of a categorized error, as they are inserted. *)
Definition error_turns (title message : string) : list (string * string) :=
  [("error_title", "Error_title: " ++ warning_sign ++ " " ++ title);
   ("error", "Error: " ++ message)].

(** At most one worker is out, the inputs are disabled while it is, and a
    disabled entry is empty. *)
Definition single_flight_inv (w : ChatWindow.t) : Prop :=
  length (workers w) <= 1
  /\ (workers w <> [] ->
      user_input_state w = disabled /\ send_button_state w = disabled)
  /\ (user_input_state w = disabled -> user_input w = "").

(** [w'] differs from [w] at most in the history, the suggestion and the
    paste and undo widgets. *)
Definition same_inputs (w w' : ChatWindow.t) : Prop :=
  workers w' = workers w
  /\ user_input w' = user_input w
  /\ user_input_state w' = user_input_state w
  /\ send_button_state w' = send_button_state w.

(** The events by which the user tries to submit a message. *)
Definition is_submit (ev : Event) : Prop :=
  match ev with
  | Type_text _ | Press_return | Click_send => True
  | _ => False
  end.

End Session.

(* ================================================================== *)
(** * Statements of the specification, in its own words                *)
(* ================================================================== *)

Module Spec.

(** Capture, steps 3 and 4: the first reading that is non-empty and differs
    from [before]; "no selection" when there is none, or when a strategy
    raised before one was found. *)
Fixpoint first_changed (before : string) (rs : list (Result string))
  : option string :=
  match rs with
  | [] => None
  | Raised _ :: _ => None
  | Ok c :: rest =>
      if negb (c =? "") && negb (c =? before) then Some c
      else first_changed before rest
  end.

(** EditHistory: [push] appends only if [edit != current()]. *)
Definition push (edit : string) (history : list string) : list string :=
  if last history "" =? edit then history else history ++ [edit].

(** The reply of the "parser round trip" property. *)
Definition round_trip_reply : string :=
  "Here:" ++ Str.nl ++ "```json" ++ Str.nl
  ++ "{" ++ Str.dquote ++ "enhanced_content" ++ Str.dquote ++ ": "
  ++ Str.dquote ++ "X" ++ Str.dquote ++ "}" ++ Str.nl
  ++ "```" ++ Str.nl ++ "Done.".


End Spec.

(* ================================================================== *)
(** * Concrete surroundings used by the examples                       *)
(* ================================================================== *)

Module Examples.
Import ChatWindow Session.

(** Nothing raises, the other applications leave the clipboard alone. *)
Definition quiet : Env := mkEnv (fun _ _ => None) (fun _ s => clipboard s).

(** As [quiet], but the source window cannot be activated any more. *)
Definition window_gone : Env :=
  mkEnv (fun c _ => match c with
                    | Activate 1 => Some "window handle is invalid"
                    | _ => None
                    end)
        (fun _ s => clipboard s).

(** The application under the cursor ignores the chord and copies its
    selection only when the keys are held. *)
Definition hold_needed : Env :=
  mkEnv (fun _ _ => None)
        (fun c s => match c with
                    | KeyboardPress "c" => "selected words"
                    | _ => clipboard s
                    end).

(** As [hold_needed], but releasing the control key raises. *)
Definition faulty : Env :=
  mkEnv (fun c _ => match c with
                    | KeyboardRelease "ctrl" => Some "keyboard hook lost"
                    | _ => None
                    end)
        (reacts hold_needed).

Definition desktop (clip : string) : Sys := mkSys clip (Some 7) [] [] None.

Definition suggest (text : string) : string -> Result string :=
  fun _ => Ok ("Sure." ++ Str.nl ++ "```json" ++ Str.nl
               ++ "{" ++ Str.dquote ++ "enhanced_content" ++ Str.dquote ++ ": "
               ++ Str.dquote ++ text ++ Str.dquote ++ "}" ++ Str.nl ++ "```").

(** A session on the selection ["A"] whose first question is out. *)
Definition awaiting : State :=
  (_send_message_event (set_user_input "q1" (__init__ "A" (Some 1))),
   desktop "old").

(** Two questions in a row, each answered with the suggestion ["B"]. *)
Definition same_suggestion_twice : list Event :=
  [Type_text "q1"; Press_return; Worker_done (suggest "B");
   Type_text "q2"; Press_return; Worker_done (suggest "B")].

End Examples.

(* ================================================================== *)
(** * chat_window.py: placement of the window and previews             *)
(* ================================================================== *)

Module Placement.

(** [v or d] on integers. *)
Definition or_default (v d : Z) : Z := if (v =? 0)%Z then d else v.

(** [_calculate_window_position]: the coordinates handed to [geometry].
    The sizes reported by the toolkit and by [pyautogui.size()] are
    arguments; [//] is [Z.div]. *)
Definition _calculate_window_position (mouse_x mouse_y : option Z)
    (winfo_width winfo_height winfo_screenwidth winfo_screenheight : Z)
    (pyautogui_size : Z * Z) : Z * Z :=
  (match mouse_x, mouse_y with
   | Some mouse_x, Some mouse_y =>
       let screen_width := fst pyautogui_size in
       let screen_height := snd pyautogui_size in
       let window_width := 300 in
       let window_height := 300 in
       let x := mouse_x + 20 in
       let x := if x + window_width >? screen_width
                then mouse_x - window_width - 20 else x in
       let x := if x <? 0 then (screen_width - window_width) / 2 else x in
       let y := mouse_y - window_height / 2 in
       let y := if y <? 0 then 10 else y in
       let y := if y + window_height >? screen_height
                then screen_height - window_height - 40 else y in
       (x, y)
   | _, _ =>
       let window_width := or_default winfo_width 300 in
       let window_height := or_default winfo_height 300 in
       ((winfo_screenwidth - window_width) / 2,
        (winfo_screenheight - window_height) / 2)
   end)%Z.

(** The one-line summary of the selection built in [__init__]:
    [initial_text.strip().split("\n")[0]], cut to 47 characters and an
    ellipsis when longer than 50. *)
Definition context_preview (initial_text : string) : string :=
  let preview_text := fst (Str.split1 "010" (Str.strip initial_text)) in
  if (50 <? String.length preview_text)%nat
  then Str.take 47 preview_text ++ "..."
  else preview_text.

End Placement.

(* ================================================================== *)
(** * config.py                                                        *)
(* ================================================================== *)

Module Config.

(** [_config_cache]: [None] before any load, [False] once a load has
    failed, the decoded file otherwise. *)
Inductive Cache : Type :=
| NotLoaded
| LoadFailed
| Loaded (data : Json.value).

Record State : Type := mkState {
  _config_cache : Cache;
  _config_loaded_successfully : bool
}.

Definition initial : State := mkState NotLoaded false.

Definition EXPECTED_KEYS : list string := ["GROQ_API_KEY"; "SNIPAI_HOTKEY"].

Definition is_text (key : string) (v : Json.value) : bool :=
  match v with
  | Json.Str s => s =? key
  | _ => false
  end.

Section WithNumbers.
(** The truth value of a decoded number follows the arithmetic of the
    interpreter and is left open. *)
Variable number_truthy : string -> bool.

Definition truthy (v : Json.value) : bool :=
  match v with
  | Json.Null => false
  | Json.Bool b => b
  | Json.Number lexeme => number_truthy lexeme
  | Json.Str s => Str.truthy s
  | Json.Array items => match items with [] => false | _ :: _ => true end
  | Json.Object members => match members with [] => false | _ :: _ => true end
  end.

(** [key not in _config_cache or not _config_cache[key]], which is a
    [TypeError] on a decoded value that is no object but holds the key, or
    cannot hold one. *)
Definition missing (data : Json.value) (key : string) : Result bool :=
  match data with
  | Json.Object members =>
      match Json.lookup key members with
      | None => Ok true
      | Some v => Ok (negb (truthy v))
      end
  | Json.Array items =>
      if existsb (is_text key) items then Raised "TypeError" else Ok true
  | Json.Str s =>
      if Str.contains key s then Raised "TypeError" else Ok true
  | _ => Raised "TypeError"
  end.

(** [[key for key in keys if ...]] *)
Fixpoint missing_keys (data : Json.value) (keys : list string)
  : Result (list string) :=
  match keys with
  | [] => Ok []
  | key :: rest =>
      match missing data key with
      | Raised e => Raised e
      | Ok absent =>
          match missing_keys data rest with
          | Raised e => Raised e
          | Ok others => Ok (if absent then key :: others else others)
          end
      end
  end.

(** [_load_config()], given what opening and reading the file yields at the
    time of the call. *)
Definition _load_config (file : Result string) (st : State) : bool * State :=
  if _config_loaded_successfully st then (true, st)
  else
    match _config_cache st with
    | LoadFailed => (false, st)
    | _ =>
        match file with
        | Raised _ => (false, mkState LoadFailed false)
        | Ok content =>
            match Json.loads content with
            | None => (false, mkState LoadFailed false)
            | Some data =>
                match missing_keys data EXPECTED_KEYS with
                | Ok [] => (true, mkState (Loaded data) true)
                | _ => (false, mkState LoadFailed false)
                end
            end
        end
    end.

(** [_config_cache.get(key)] *)
Definition cache_get (key : string) (st : State) : Result (option Json.value) :=
  match _config_cache st with
  | Loaded (Json.Object members) => Ok (Json.lookup key members)
  | _ => Raised "AttributeError"
  end.

(** The two accessors differ in the key only. *)
Definition get_value (key : string) (file : Result string) (st : State)
  : Result Json.value * State :=
  let (loaded, st) := _load_config file st in
  if loaded then
    match cache_get key st with
    | Ok (Some v) =>
        if truthy v then (Ok v, st)
        else (Raised (key ++ " is missing or empty in 'config.json'."), st)
    | Ok None => (Raised (key ++ " is missing or empty in 'config.json'."), st)
    | Raised e => (Raised e, st)
    end
  else
    (Raised ("Configuration 'config.json' is missing or invalid. Cannot retrieve "
             ++ key ++ "."), st).

Definition get_groq_api_key := get_value "GROQ_API_KEY".
Definition get_hotkey := get_value "SNIPAI_HOTKEY".

(** The state after a series of calls of [_load_config], one file outcome
    per call. *)
Fixpoint loads (files : list (Result string)) (st : State) : State :=
  match files with
  | [] => st
  | file :: rest => loads rest (snd (_load_config file st))
  end.

(** The cache holds an object with both keys set. *)
Definition complete (st : State) : Prop :=
  exists members key hotkey,
    _config_cache st = Loaded (Json.Object members)
    /\ Json.lookup "GROQ_API_KEY" members = Some key /\ truthy key = true
    /\ Json.lookup "SNIPAI_HOTKEY" members = Some hotkey
    /\ truthy hotkey = true.

End WithNumbers.
End Config.

(* ================================================================== *)
(** * hotkey_manager.py                                                *)
(* ================================================================== *)

Module HotkeyManager.

(** The module global and the reset timers started and not yet fired. *)
Record State : Type := mkState {
  _hotkey_pressed : bool;
  reset_timers : nat
}.

Definition initial : State := mkState false 0.

(** The function returned by [_debounce_callback(callback_function)]. The
    flag is set before the callback runs, which the callback cannot see. *)
Definition debounced_function (callback_function : M unit) (h : State)
  : M State :=
  if _hotkey_pressed h then ret h
  else
    try_except callback_function (fun _ => ret tt) ;;
    ret (mkState true (S (reset_timers h))).

Definition _reset_hotkey_flag (h : State) : State :=
  mkState false (reset_timers h).

Inductive Event : Type :=
| Trigger          (* the key combination is seen *)
| Reset_fires.     (* a reset timer expires *)

(** One event on the module state and the surroundings; [None] when no
    reset timer is there to fire, or when the hotkey library is handed an
    exception. *)
Definition dispatch (callback_function : M unit) (ev : Event)
    (st : State * Sys) : option (State * Sys) :=
  let (h, s) := st in
  match ev with
  | Trigger =>
      match debounced_function callback_function h s with
      | (Ok h', s') => Some (h', s')
      | (Raised _, _) => None
      end
  | Reset_fires =>
      match reset_timers h with
      | S n => Some (mkState (_hotkey_pressed (_reset_hotkey_flag h)) n, s)
      | O => None
      end
  end.

Fixpoint run (callback_function : M unit) (evs : list Event)
    (st : State * Sys) : option (State * Sys) :=
  match evs with
  | [] => Some st
  | ev :: rest =>
      match dispatch callback_function ev st with
      | Some st' => run callback_function rest st'
      | None => None
      end
  end.

Definition is_reset (ev : Event) : bool :=
  match ev with Reset_fires => true | Trigger => false end.

(** The surroundings after [n] calls of the callback in a row from [s],
    each taken to its end, normal or not. *)
Fixpoint after_calls (callback_function : M unit) (n : nat) (s : Sys) : Sys :=
  match n with
  | O => s
  | S n' => after_calls callback_function n' (snd (callback_function s))
  end.

(** The flag is set exactly while one reset timer is pending. *)
Definition debounce_inv (h : State) : Prop :=
  (_hotkey_pressed h = true /\ reset_timers h = 1)
  \/ (_hotkey_pressed h = false /\ reset_timers h = 0).

End HotkeyManager.

(* ================================================================== *)
(** * main.py                                                          *)
(* ================================================================== *)

Module Main.
Section WithEnv.
Variable env : Env.

(** [trigger_chat_popup], as the window it opens, if any. [position] is what
    [pyautogui.position()] yields; building the windows themselves is not
    modelled. *)
Definition trigger_chat_popup (position : Result (Z * Z))
  : M (option ChatWindow.t) :=
  try_except
    (active_window <- try_except (getActiveWindow env) (fun _ => ret None) ;;
     selected_text <- ClipboardHandler.get_selected_text_via_copy env ;;
     match selected_text with
     | Some text =>
         if Str.truthy text then
           match position with
           | Ok _ => ret (Some (ChatWindow.__init__ text active_window))
           | Raised e => fun s => (Raised e, s)
           end
         else ret None
     | None => ret None
     end)
    (fun _ => ret None).

End WithEnv.
End Main.

(* ================================================================== *)
(** * What is observed of a run                                        *)
(* ================================================================== *)

Module Observe.

Definition is_left (c : Call) : bool :=
  match c with
  | KeyboardPressAndRelease key => key =? "left"
  | _ => false
  end.

(** The left-arrow presses made so far. *)
Definition left_presses (s : Sys) : nat := length (filter is_left (trace s)).

Definition is_write (c : Call) : bool :=
  match c with
  | PyperclipCopy _ => true
  | _ => false
  end.

(** The clipboard writes made so far, most recent first. *)
Definition writes (s : Sys) : list Call := filter is_write (trace s).

Definition is_key (c : Call) : bool :=
  match c with
  | KeyboardPress _ | KeyboardRelease _ | KeyboardPressAndRelease _ => true
  | _ => false
  end.

(** The simulated key actions made so far. *)
Definition keys (s : Sys) : list Call := filter is_key (trace s).

(** Nothing raises. *)
Definition reliable (env : Env) : Prop :=
  forall c s, raises env c s = None.

(** The other applications leave the clipboard alone. *)
Definition undisturbed (env : Env) : Prop :=
  forall c s, reacts env c s = clipboard s.

(** From [s], [m] returns normally with a value and a state that satisfy
    [Q]. *)
Definition returns {A} (m : M A) (s : Sys) (Q : A -> Sys -> Prop) : Prop :=
  exists a s', m s = (Ok a, s') /\ Q a s'.

(** The clipboard, the focus and the timers are in [s'] as in [s]. *)
Definition unchanged (s s' : Sys) : Prop :=
  clipboard s' = clipboard s /\ foreground s' = foreground s
  /\ timers s' = timers s.

(** The edit history of a window: the stack starts with the original
    selection, holds no empty version, and its top is the current content
    whenever there is one; the paste frame is shown only with a current
    content, and never while a worker is out. *)
Definition history_inv (w : ChatWindow.t) : Prop :=
  (exists rest, ChatWindow.text_stack w = ChatWindow.initial_text w :: rest)
  /\ Forall (fun v => v <> "") (ChatWindow.text_stack w)
  /\ (forall c, ChatWindow.enhanced_content w = Some c ->
                last (ChatWindow.text_stack w) "" = c)
  /\ (ChatWindow.paste_frame_shown w = true ->
      ChatWindow.enhanced_content w <> None)
  /\ (ChatWindow.workers w <> [] ->
      ChatWindow.enhanced_content w = None
      /\ ChatWindow.paste_frame_shown w = false).

Definition not_status (m : string * string) : Prop := fst m <> "status".

(** The status placeholder: absent while idle, and the last message, once,
    while a worker is out. *)
Definition status_inv (w : ChatWindow.t) : Prop :=
  match ChatWindow.workers w with
  | [] => Forall not_status (ChatWindow.chat_display w)
  | _ :: _ =>
      exists turns,
        ChatWindow.chat_display w = (turns ++ [("status", "Thinking...")])%list
        /\ Forall not_status turns
  end.


(** All that is kept along a session. *)
Definition session_inv (w : ChatWindow.t) : Prop :=
  Session.single_flight_inv w /\ history_inv w /\ status_inv w.

(** The character [c] occurs in [s]. *)
Fixpoint has_char (c : ascii) (s : string) : bool :=
  match s with
  | EmptyString => false
  | String x s' => Ascii.eqb x c || has_char c s'
  end.

(** The turns put in place of the status placeholder when the worker at the
    head of [workers] ends, [chain] being what the model service does. *)
Definition reply_turns (env : Env) (chain : string -> Result string)
    (st : Session.State) : option (list (string * string)) :=
  match Session.dispatch env (Session.Worker_done chain) st with
  | Some (w', _) =>
      Some (skipn (length (removelast (ChatWindow.chat_display (fst st))))
                  (ChatWindow.chat_display w'))
  | None => None
  end.

(** The prefixes by which [_update_gui_from_thread] recognizes an error,
    each with the title shown for it. *)
Definition error_prefixes : list (string * string) :=
  [("API_KEY_ERROR:", "API KEY ERROR");
   ("CONNECTION_ERROR:", "CONNECTION ERROR");
   ("NO_RESPONSE_ERROR:", "NO RESPONSE ERROR")].


(** [m] adds at most [k] left-arrow presses. *)
Definition presses_at_most {A} (k : nat) (m : M A) : Prop :=
  forall s, left_presses (snd (m s)) <= left_presses s + k.

End Observe.

(* ================================================================== *)
(** * Further concrete surroundings                                    *)
(* ================================================================== *)

Module MoreExamples.
Import ChatWindow Session Examples.

Definition value_of {A} (default : A) (r : Result A) : A :=
  match r with
  | Ok a => a
  | Raised _ => default
  end.



(** The same result, handed straight to the window. *)
Definition suggested : Result ChatWindow.t * Sys :=
  _update_gui_from_thread "Sure." "assistant" (Some "B") (fst awaiting)
    (snd awaiting).

Definition suggested_window : ChatWindow.t :=
  value_of (fst awaiting) (fst suggested).

Definition undone : Result ChatWindow.t * Sys :=
  _undo_action quiet suggested_window (snd suggested).

(** A configuration file with both keys. *)
Definition config_file : string :=
  "{" ++ Str.dquote ++ "GROQ_API_KEY" ++ Str.dquote ++ ": "
  ++ Str.dquote ++ "gsk_test" ++ Str.dquote ++ ", "
  ++ Str.dquote ++ "SNIPAI_HOTKEY" ++ Str.dquote ++ ": "
  ++ Str.dquote ++ "alt+shift+s" ++ Str.dquote ++ "}".

Definition always_true : string -> bool := fun _ => true.

Definition loaded_config : Config.State :=
  snd (Config._load_config always_true (Ok config_file) Config.initial).

(** A callback that looks for the active window and then raises. *)
Definition failing_callback : M unit :=
  fun s => (Raised "no window", log GetActiveWindow s).

Definition keypresses : list HotkeyManager.Event :=
  [HotkeyManager.Trigger; HotkeyManager.Trigger; HotkeyManager.Reset_fires;
   HotkeyManager.Trigger].

End MoreExamples.

(* ================================================================== *)
(** * Properties                                                       *)
(* ================================================================== *)

(** ** Effects that leave a part of the state alone *)

Section Frames.
Variable env : Env.

Lemma keeps_ret {X A} (proj : Sys -> X) (a : A) : keeps proj (ret a).
Proof. intros s; reflexivity. Qed.

Lemma keeps_bind {X A B} (proj : Sys -> X) (m : M A) (f : A -> M B) :
  keeps proj m -> (forall a, keeps proj (f a)) -> keeps proj (bind m f).
Proof.
  intros Hm Hf s. unfold bind. specialize (Hm s).
  destruct (m s) as [[a|e] s1]; simpl in *; [|exact Hm].
  rewrite Hf. exact Hm.
Qed.

Lemma keeps_try_except {X A} (proj : Sys -> X) (m : M A) (h : string -> M A) :
  keeps proj m -> (forall e, keeps proj (h e)) -> keeps proj (try_except m h).
Proof.
  intros Hm Hh s. unfold try_except. specialize (Hm s).
  destruct (m s) as [[a|e] s1]; simpl in *; [exact Hm|].
  rewrite Hh. exact Hm.
Qed.

Ltac call_keeps :=
  let s := fresh "s" in
  intros s; cbv beta delta [interact pyperclip_paste pyperclip_copy activate
    getActiveWindow _flash_paste_button_success _flash_paste_button_ready];
  cbv zeta; destruct (raises env _ s); reflexivity.

Lemma interact_keeps_original c : keeps _original_clipboard (interact env c).
Proof. call_keeps. Qed.

Lemma paste_keeps_original : keeps _original_clipboard (pyperclip_paste env).
Proof. call_keeps. Qed.

Lemma interact_keeps_timers c : keeps timers (interact env c).
Proof. call_keeps. Qed.

Lemma paste_keeps_timers : keeps timers (pyperclip_paste env).
Proof. call_keeps. Qed.

Lemma copy_keeps_timers text : keeps timers (pyperclip_copy env text).
Proof. call_keeps. Qed.

Lemma activate_keeps_timers w : keeps timers (activate env w).
Proof. call_keeps. Qed.

Lemma getActiveWindow_keeps_timers : keeps timers (getActiveWindow env).
Proof. call_keeps. Qed.

Lemma flash_keeps_timers message :
  keeps timers (_flash_paste_button_success env message).
Proof. call_keeps. Qed.

Lemma for_range_keeps {X} (proj : Sys -> X) n (body : M unit) :
  keeps proj body -> keeps proj (ChatWindow.for_range n body).
Proof.
  intros Hb. induction n as [|n IH]; simpl.
  - apply keeps_ret.
  - apply keeps_bind; [exact Hb|intros _; exact IH].
Qed.

(** A successful [bind] is a success of both parts. *)
Lemma bind_ok {A B} (m : M A) (f : A -> M B) s b s1 :
  bind m f s = (Ok b, s1) ->
  exists a s', m s = (Ok a, s') /\ f a s' = (Ok b, s1).
Proof.
  unfold bind. destruct (m s) as [[a|e] s'] eqn:E; [eauto|discriminate].
Qed.

End Frames.

(** ** Capture: the clipboard is put back, the first changed content is returned *)

Section CaptureProofs.
Import ClipboardHandler.
Variable env : Env.

Lemma keeps_methods : Forall (keeps _original_clipboard) (methods env).
Proof.
  unfold methods, keyboard_press, keyboard_release,
    keyboard_press_and_release, time_sleep.
  repeat constructor;
    repeat (apply keeps_bind; [|intros _]); apply interact_keeps_original.
Qed.

Lemma keeps_try_methods original_content ms :
  Forall (keeps _original_clipboard) ms ->
  keeps _original_clipboard (try_methods env original_content ms).
Proof.
  induction 1 as [|m ms Hm _ IH]; simpl.
  - apply keeps_ret.
  - apply keeps_bind; [exact Hm|intros _].
    apply keeps_bind; [apply interact_keeps_original|intros _].
    apply keeps_bind; [apply paste_keeps_original|intros c].
    destruct (copied c original_content); [apply keeps_ret|exact IH].
Qed.

(** Saving a readable clipboard returns its content and records it. *)
Lemma save_readable s :
  raises env PyperclipPaste s = None ->
  _save_clipboard env s =
    (Ok (Some (clipboard s)),
     set_original (Some (clipboard s)) (log PyperclipPaste s)).
Proof.
  intros H. unfold _save_clipboard, try_except, bind, pyperclip_paste.
  rewrite H. reflexivity.
Qed.

(** Restoring a recorded content writes it back when the write succeeds. *)
Lemma restore_recorded s c :
  _original_clipboard s = Some c ->
  raises env (PyperclipCopy c) s = None ->
  exists s', _restore_clipboard env s = (Ok tt, s') /\ clipboard s' = c.
Proof.
  intros Ho Hr.
  unfold _restore_clipboard, bind, gets, try_except, pyperclip_copy, modify.
  rewrite Ho, Hr. eexists; split; reflexivity.
Qed.

(** The guarded loop never lets an exception escape. *)
Lemma guarded_loop_returns original_content s :
  exists r s',
    try_except (try_methods env original_content (methods env))
               (fun _ => ret None) s = (Ok r, s')
    /\ _original_clipboard s' = _original_clipboard s.
Proof.
  pose proof (keeps_try_methods original_content _ keeps_methods s) as K.
  unfold try_except.
  destruct (try_methods env original_content (methods env) s) as [[r|e] s1];
    simpl in K.
  - exists r, s1. split; [reflexivity|exact K].
  - exists None, s1. split; [reflexivity|exact K].
Qed.

(** C1. For every pre-capture clipboard value (the empty string too),
    [get_selected_text_via_copy] returns normally and leaves the clipboard
    equal to that value, whatever the copy strategies did: one of them
    succeeded, none changed the clipboard, or a simulated interaction
    raised. The clipboard itself is assumed readable on entry and writable
    with the saved text. *)
Theorem capture_restores_clipboard (s : Sys) :
  raises env PyperclipPaste s = None ->
  (forall s', raises env (PyperclipCopy (clipboard s)) s' = None) ->
  exists r s',
    get_selected_text_via_copy env s = (Ok r, s')
    /\ clipboard s' = clipboard s.
Proof.
  intros Hread Hwrite.
  unfold get_selected_text_via_copy, try_finally.
  unfold bind at 1. rewrite (save_readable s Hread).
  set (s0 := set_original _ _).
  destruct (guarded_loop_returns (Some (clipboard s)) s0) as (r & s1 & E & Ho).
  rewrite E.
  destruct (restore_recorded s1 (clipboard s) Ho (Hwrite s1)) as (s2 & E2 & Hc).
  rewrite E2. eauto.
Qed.

Lemma restore_returns s : fst (_restore_clipboard env s) = Ok tt.
Proof.
  unfold _restore_clipboard, bind, gets, try_except, pyperclip_copy, modify, ret.
  destruct (_original_clipboard s) as [c|]; [|reflexivity].
  destruct (raises env (PyperclipCopy c) s); reflexivity.
Qed.

Lemma finally_restore_result {A} (body : M A) s :
  fst (try_finally body (_restore_clipboard env) s) = fst (body s).
Proof.
  unfold try_finally. destruct (body s) as [r s1].
  pose proof (restore_returns s1) as R.
  destruct (_restore_clipboard env s1) as [[[]|e] s2]; simpl in *;
    [reflexivity|discriminate].
Qed.

(** The loop with its [break], under its [except], is the search of the
    first changed reading. *)
Lemma loop_first_changed before ms s :
  fst (try_except (try_methods env (Some before) ms) (fun _ => ret None) s)
  = Ok (Spec.first_changed before (readings env ms s)).
Proof.
  revert s. induction ms as [|m ms IH]; intros s; [reflexivity|].
  specialize (IH) . unfold try_except in *. simpl.
  unfold attempt, bind at 1 2 3 4 5.
  destruct (m s) as [[[]|e] s1]; [|reflexivity].
  destruct (time_sleep env 300 s1) as [[[]|e] s2]; [|reflexivity].
  destruct (pyperclip_paste env s2) as [[c|e] s3]; [|reflexivity].
  simpl. unfold copied.
  destruct (negb (c =? "") && negb (c =? before)); [reflexivity|].
  apply IH.
Qed.

Lemma loop_never_empty original_content ms s :
  fst (try_methods env original_content ms s) <> Ok (Some "").
Proof.
  revert s. induction ms as [|m ms IH]; intros s; simpl; [discriminate|].
  unfold bind at 1 2 3.
  destruct (m s) as [[[]|e] s1]; [|discriminate].
  destruct (time_sleep env 300 s1) as [[[]|e] s2]; [|discriminate].
  destruct (pyperclip_paste env s2) as [[c|e] s3]; [|discriminate].
  destruct (copied c original_content) eqn:E; [|apply IH].
  simpl. intros H. injection H as ->. discriminate.
Qed.

(** C3. [get_selected_text_via_copy] tries its strategies in order and
    returns the clipboard content read after the first one that left the
    clipboard non-empty and different from the value [before] it had on
    entry; when no strategy does (or one raises first) it returns [None].
    It never returns the empty string. *)
Theorem capture_returns_first_changed (s : Sys) :
  raises env PyperclipPaste s = None ->
  fst (get_selected_text_via_copy env s)
  = Ok (Spec.first_changed (clipboard s)
          (readings env (methods env) (snd (_save_clipboard env s))))
  /\ fst (get_selected_text_via_copy env s) <> Ok (Some "").
Proof.
  intros Hread. unfold get_selected_text_via_copy.
  rewrite finally_restore_result. unfold bind.
  rewrite (save_readable s Hread). cbn [snd]. split.
  - apply loop_first_changed.
  - set (s0 := set_original _ _).
    pose proof (loop_never_empty (Some (clipboard s)) (methods env) s0) as N.
    unfold try_except.
    destruct (try_methods env (Some (clipboard s)) (methods env) s0)
      as [[r|e] s1]; simpl in *; [exact N|discriminate].
Qed.
End CaptureProofs.

(** ** The reply parser *)

Section ParserProofs.
Import ChatWindow.

(** C4, as stated, fails: for the reply of the round-trip property the parser
    does not return the display text ["Here:\nDone."]. *)
Lemma round_trip_display_not_single_newline :
  _extract_enhanced_content Spec.round_trip_reply
  <> ("Here:" ++ Str.nl ++ "Done.", Some (Json.Str "X")).
Proof. vm_compute. intros H. discriminate H. Qed.

(** C4, amended. For that reply the parser decodes the field into the
    suggestion ["X"] and removes the whole fenced block; the newline in front
    of the block and the one behind it both stay, being fewer than three, so
    the display text is ["Here:\n\nDone."]. *)
Theorem round_trip_display_keeps_two_newlines :
  _extract_enhanced_content Spec.round_trip_reply
  = ("Here:" ++ Str.nl ++ Str.nl ++ "Done.", Some (Json.Str "X")).
Proof. vm_compute. reflexivity. Qed.

(** With blank lines around the block, the run of newlines left behind is
    cut down to two, and the ends are trimmed. *)
Example blank_lines_collapse :
  _extract_enhanced_content
    (Str.nl ++ "Here:" ++ Str.nl ++ Str.nl ++ "```json"
     ++ "{" ++ Str.dquote ++ "enhanced_content" ++ Str.dquote ++ ":"
     ++ Str.dquote ++ "X" ++ Str.dquote ++ "}```" ++ Str.nl ++ Str.nl
     ++ "Done." ++ Str.nl)
  = ("Here:" ++ Str.nl ++ Str.nl ++ "Done.", Some (Json.Str "X")).
Proof. vm_compute. reflexivity. Qed.

(** A payload that does not decode leaves the reply as it is. *)
Example broken_payload_is_kept :
  _extract_enhanced_content
    ("```json{" ++ Str.dquote ++ "enhanced_content" ++ Str.dquote ++ ": oops}```")
  = ("```json{" ++ Str.dquote ++ "enhanced_content" ++ Str.dquote ++ ": oops}```",
     None).
Proof. vm_compute. reflexivity. Qed.

End ParserProofs.

(** ** The edit history *)

Section HistoryProofs.
Import ChatWindow Session Examples.

(** A suggestion that arrives while [enhanced_content] is [None] is appended
    whatever the top of the stack is; [_send_message_event] has just reset
    that attribute when a worker delivers. *)
Lemma suggestion_after_submit_is_appended message new_content self s :
  new_content <> "" ->
  categorized message = false ->
  enhanced_content self = None ->
  exists self',
    _update_gui_from_thread message "assistant" (Some new_content) self s
    = (Ok self', s)
    /\ text_stack self' = (text_stack self ++ [new_content])%list.
Proof.
  intros Hne Hcat Hnone. unfold _update_gui_from_thread.
  rewrite Hcat. cbn [andb String.eqb Ascii.eqb Bool.eqb].
  replace (Str.truthy new_content) with true
    by (unfold Str.truthy; destruct new_content; [congruence|reflexivity]).
  cbn [_remove_last_message _append_to_chat enhanced_content set_chat_display].
  rewrite Hnone. unfold bind, _update_paste_preview. cbn.
  eexists; split; reflexivity.
Qed.

(** C5 on the code. Starting from the selection ["A"], two questions that are
    both answered with the suggestion ["B"] leave the history
    [["A"; "B"; "B"]]: the second arrival is appended although it equals the
    top, where [Spec.push] keeps [["A"; "B"]]. *)
Theorem same_suggestion_is_pushed_twice :
  option_map (fun st => text_stack (fst st))
    (run quiet same_suggestion_twice (__init__ "A" (Some 1), desktop "old"))
  = Some ["A"; "B"; "B"]
  /\ Spec.push "B" (Spec.push "B" ["A"]) = ["A"; "B"].
Proof. split; vm_compute; reflexivity. Qed.

End HistoryProofs.

(** ** Paste-back into the source window *)

Section ApplyProofs.
Import ChatWindow.
Variable env : Env.

Lemma paste_ok s a s' :
  pyperclip_paste env s = (Ok a, s') ->
  a = clipboard s /\ s' = log PyperclipPaste s.
Proof.
  unfold pyperclip_paste. destruct (raises env PyperclipPaste s);
    intros H; inversion H; auto.
Qed.

Lemma copy_ok text s u s' :
  pyperclip_copy env text s = (Ok u, s') ->
  s' = log (PyperclipCopy text) (set_clipboard text s).
Proof.
  unfold pyperclip_copy. destruct (raises env (PyperclipCopy text) s);
    intros H; inversion H; auto.
Qed.

Lemma interact_ok c s u s' :
  interact env c s = (Ok u, s') ->
  s' = log c (set_clipboard (reacts env c s) s).
Proof.
  unfold interact. destruct (raises env c s); intros H; inversion H; auto.
Qed.

Lemma getActiveWindow_ok s a s' :
  getActiveWindow env s = (Ok a, s') ->
  a = foreground s /\ s' = log GetActiveWindow s.
Proof.
  unfold getActiveWindow. destruct (raises env GetActiveWindow s);
    intros H; inversion H; auto.
Qed.

Lemma activate_ok w s u s' :
  activate env w s = (Ok u, s') ->
  s' = set_foreground (Some w)
         (log (Activate w) (set_clipboard (reacts env (Activate w) s) s)).
Proof.
  unfold activate. destruct (raises env (Activate w) s);
    intros H; inversion H; auto.
Qed.

Lemma flash_ok message s u s' :
  _flash_paste_button_success env message s = (Ok u, s') ->
  s' = log (FlashPasteButton message) s.
Proof.
  unfold _flash_paste_button_success.
  destruct (raises env (FlashPasteButton message) s);
    intros H; inversion H; auto.
Qed.

Lemma Timer_start_ok n text original s u s' :
  Timer_start env n text original s = (Ok u, s') ->
  s' = log (TimerStart n text original) (add_timer (text, original) s).
Proof.
  unfold Timer_start. destruct (raises env (TimerStart n text original) s);
    intros H; inversion H; auto.
Qed.

(** A [try] whose handler returns [False] yields [True] only through its
    body. *)
Lemma try_false_true (body : M bool) s s1 :
  try_except body (fun _ => ret false) s = (Ok true, s1) ->
  body s = (Ok true, s1).
Proof.
  unfold try_except. destruct (body s) as [[b|e] s']; [auto|discriminate].
Qed.

(** The selection loop, when it completes: its calls, and what it leaves
    alone. *)
Lemma selection_loop_ok n s u s' :
  for_range n (keyboard_press_and_release env "left" ;; time_sleep env 1) s
  = (Ok u, s') ->
  trace s' = (left_arrows n ++ trace s)%list
  /\ timers s' = timers s /\ foreground s' = foreground s.
Proof.
  revert s. induction n as [|n IH]; intros s H; simpl in H.
  - inversion H. auto.
  - apply bind_ok in H. destruct H as ([] & s1 & H1 & H).
    apply bind_ok in H1. destruct H1 as ([] & s2 & Hk & Hs).
    apply interact_ok in Hk. apply interact_ok in Hs. subst s2 s1.
    apply IH in H. destruct H as (Ht & Hti & Hf).
    rewrite Ht, Hti, Hf. simpl. rewrite <- app_assoc. auto.
Qed.

(** What a successful [_apply_text_to_source_window] has done: it wrote the
    text to the clipboard, pasted it into the source window, extended the
    selection to the left once per character (at most 1000 times), and
    scheduled one restoration of the content the clipboard had on entry. *)
Lemma apply_success self text action s s1 :
  _apply_text_to_source_window env self text action s = (Ok true, s1) ->
  exists source,
    source_window self = Some source
    /\ timers s1 = (timers s ++ [(text, clipboard s)])%list
    /\ trace s1
       = (paste_calls text action (clipboard s) source (foreground s)
          ++ trace s)%list.
Proof.
  unfold _apply_text_to_source_window. intros H.
  destruct (negb (Str.truthy text)); [discriminate|].
  apply try_false_true in H.
  apply bind_ok in H. destruct H as (original & sa & Hp & H).
  apply paste_ok in Hp. destruct Hp as [-> ->].
  apply bind_ok in H. destruct H as ([] & sb & Hc & H).
  apply copy_ok in Hc. subst sb.
  destruct (source_window self) as [source|]; [|discriminate].
  exists source. split; [reflexivity|].
  apply try_false_true in H.
  apply bind_ok in H. destruct H as (current_window & s2 & Hg & H).
  apply getActiveWindow_ok in Hg. destruct Hg as [-> ->].
  apply bind_ok in H. destruct H as ([] & s3 & Ha & H).
  apply activate_ok in Ha. subst s3.
  apply bind_ok in H. destruct H as ([] & s4 & Hi & H).
  apply interact_ok in Hi. subst s4.
  apply bind_ok in H. destruct H as ([] & s5 & Hi & H).
  apply interact_ok in Hi. subst s5.
  apply bind_ok in H. destruct H as ([] & s6 & Hi & H).
  apply interact_ok in Hi. subst s6.
  apply bind_ok in H. destruct H as ([] & s7 & Hi & H).
  apply interact_ok in Hi. subst s7.
  apply bind_ok in H. destruct H as ([] & s8 & Hl & H).
  apply selection_loop_ok in Hl. destruct Hl as (Ltr & Lti & Lfg).
  apply bind_ok in H. destruct H as ([] & s9 & Hi & H).
  apply interact_ok in Hi. subst s9.
  apply bind_ok in H. destruct H as ([] & s10 & Hi & H).
  apply interact_ok in Hi. subst s10.
  apply bind_ok in H. destruct H as ([] & s11 & Hw & H).
  apply bind_ok in H. destruct H as ([] & s12 & Hf & H).
  apply flash_ok in Hf. subst s12.
  apply bind_ok in H. destruct H as ([] & s13 & Ht & H).
  apply Timer_start_ok in Ht. subst s13.
  inversion H; subst s1; clear H.
  cbn [foreground log set_clipboard] in Hw.
  unfold paste_calls.
  destruct (foreground s) as [window|].
  - apply activate_ok in Hw. subst s11. cbn. rewrite Ltr, Lti. cbn.
    split; [reflexivity|]. repeat rewrite <- app_assoc. reflexivity.
  - inversion Hw; subst s11. cbn. rewrite Ltr, Lti. cbn.
    split; [reflexivity|]. repeat rewrite <- app_assoc. reflexivity.
Qed.


(** No exception leaves [_apply_text_to_source_window]. *)
Lemma apply_returns self text action s :
  exists ok s', _apply_text_to_source_window env self text action s = (Ok ok, s').
Proof.
  unfold _apply_text_to_source_window.
  destruct (negb (Str.truthy text)); [unfold ret; eauto|].
  unfold try_except at 1.
  match goal with |- context [match ?b s with _ => _ end] =>
    destruct (b s) as [[ok|e] s'] end; unfold ret; eauto.
Qed.

Lemma true_or_idle_bind {A} (m : M A) (f : A -> M bool) :
  keeps timers m -> (forall a, true_or_idle (f a)) -> true_or_idle (bind m f).
Proof.
  intros Hm Hf s. unfold bind. specialize (Hm s).
  destruct (m s) as [[a|e] s1]; simpl in *; [|auto].
  destruct (Hf a s1) as [T|T]; [auto|right; congruence].
Qed.

Lemma true_or_idle_try (body : M bool) :
  true_or_idle body -> true_or_idle (try_except body (fun _ => ret false)).
Proof.
  intros Hb s. unfold try_except. specialize (Hb s).
  destruct (body s) as [[b|e] s1]; simpl in *; [exact Hb|].
  destruct Hb as [T|T]; [discriminate|auto].
Qed.

Lemma true_or_idle_apply self text action :
  true_or_idle (_apply_text_to_source_window env self text action).
Proof.
  unfold _apply_text_to_source_window.
  destruct (negb (Str.truthy text)); [intros s; auto|].
  apply true_or_idle_try.
  apply true_or_idle_bind; [apply paste_keeps_timers|intros original].
  apply true_or_idle_bind; [apply copy_keeps_timers|intros _].
  destruct (source_window self) as [source|]; [|intros s; auto].
  apply true_or_idle_try.
  apply true_or_idle_bind; [apply getActiveWindow_keeps_timers|intros current].
  apply true_or_idle_bind; [apply activate_keeps_timers|intros _].
  do 4 (apply true_or_idle_bind; [apply interact_keeps_timers|intros _]).
  apply true_or_idle_bind.
  { apply for_range_keeps.
    apply keeps_bind; [|intros _]; apply interact_keeps_timers. }
  intros _.
  do 2 (apply true_or_idle_bind; [apply interact_keeps_timers|intros _]).
  apply true_or_idle_bind.
  { destruct current; [apply activate_keeps_timers|apply keeps_ret]. }
  intros _.
  apply true_or_idle_bind; [apply flash_keeps_timers|intros _].
  intros s. unfold bind, Timer_start, ret.
  destruct (raises env _ s); simpl; auto.
Qed.

(** A paste that reports failure has scheduled no restoration. *)
Lemma failed_apply_schedules_nothing self text action s s' :
  _apply_text_to_source_window env self text action s = (Ok false, s') ->
  timers s' = timers s.
Proof.
  intros H. destruct (true_or_idle_apply self text action s) as [T|T];
    rewrite H in T; simpl in T; [discriminate|exact T].
Qed.

(** The timer body: it writes only over the text that the paste wrote. *)
Lemma restore_clipboard_cases text original s :
  let s' := snd (restore_clipboard env text original s) in
  (clipboard s' = clipboard s)
  \/ (clipboard s = text /\ clipboard s' = original).
Proof.
  unfold restore_clipboard, try_except, bind, pyperclip_paste, pyperclip_copy, ret.
  destruct (raises env PyperclipPaste s); [left; reflexivity|].
  cbn [clipboard log].
  destruct (String.eqb_spec (clipboard s) text) as [E|E]; [|left; reflexivity].
  destruct (raises env (PyperclipCopy original) (log PyperclipPaste s));
    [left; reflexivity|right; split; [exact E|reflexivity]].
Qed.

(** C6. The restoration that a successful paste schedules carries the text
    it wrote and the content the clipboard had before. When it fires, it
    puts that content back only if the clipboard still holds the text of the
    paste: a clipboard that holds anything else, such as what the user
    copied in the meantime, is left as it is. *)
Theorem delayed_restore_spares_newer_content self text action s s1 :
  _apply_text_to_source_window env self text action s = (Ok true, s1) ->
  timers s1 = (timers s ++ [(text, clipboard s)])%list
  /\ forall s2,
       let s3 := snd (restore_clipboard env text (clipboard s) s2) in
       (clipboard s2 <> text -> clipboard s3 = clipboard s2)
       /\ (clipboard s3 <> clipboard s2 ->
           clipboard s2 = text /\ clipboard s3 = clipboard s).
Proof.
  intros H. apply apply_success in H. destruct H as (source & _ & Ht & _).
  split; [exact Ht|]. intros s2 s3.
  destruct (restore_clipboard_cases text (clipboard s) s2) as [U|[E R]];
    fold s3 in U || fold s3 in R; split; intros N; try tauto; congruence.
Qed.

(** C9. Asked to paste a non-empty text without a source window,
    [_apply_text_to_source_window] reads the clipboard, overwrites it with
    the text and returns [False]: it simulates no key, writes nothing back
    and schedules no restoration, so nothing is left that holds the previous
    content. *)
Theorem apply_without_source_window self text action s :
  text <> "" ->
  source_window self = None ->
  raises env PyperclipPaste s = None ->
  raises env (PyperclipCopy text) (log PyperclipPaste s) = None ->
  exists s',
    _apply_text_to_source_window env self text action s = (Ok false, s')
    /\ clipboard s' = text
    /\ timers s' = timers s
    /\ trace s' = (PyperclipCopy text :: PyperclipPaste :: trace s)%list.
Proof.
  intros Hne Hsrc Hread Hwrite. unfold _apply_text_to_source_window.
  replace (Str.truthy text) with true
    by (unfold Str.truthy; destruct text; [congruence|reflexivity]).
  cbn [negb]. unfold try_except, bind, pyperclip_paste, pyperclip_copy.
  rewrite Hread, Hwrite, Hsrc. eexists. split; [reflexivity|]. auto.
Qed.




Lemma top_is_last w s current s' :
  top w s = (Ok current, s') -> current = last (text_stack w) "" /\ s' = s.
Proof.
  unfold top. destruct (rev (text_stack w)) as [|x l] eqn:E; [discriminate|].
  intros H; inversion H; subst. split; [|reflexivity].
  rewrite <- (rev_involutive (text_stack w)), E. simpl. apply eq_sym, last_last.
Qed.

(** The paste path compares with the top of the stack: after a successful
    paste the stack is [Spec.push] of the pasted content, after a failed one
    it is unchanged. *)
Lemma paste_pushes_unless_on_top w s w' s' :
  _paste_enhanced_content env w s = (Ok w', s') ->
  text_stack w' = text_stack w
  \/ exists content,
       enhanced_content w = Some content
       /\ text_stack w' = Spec.push content (text_stack w).
Proof.
  unfold _paste_enhanced_content.
  destruct (enhanced_content w) as [content|].
  2:{ intros H. apply bind_ok in H. destruct H as (u & s1 & _ & H).
      inversion H; auto. }
  destruct (negb (Str.truthy content)).
  { intros H. apply bind_ok in H. destruct H as (u & s1 & _ & H).
    inversion H; auto. }
  intros H. apply bind_ok in H. destruct H as (ok & s1 & _ & H).
  destruct ok; [|inversion H; auto].
  apply bind_ok in H. destruct H as (current & s2 & Ht & H).
  apply top_is_last in Ht. destruct Ht as [-> ->].
  right. exists content. split; [reflexivity|].
  unfold _update_paste_preview in H.
  match type of H with context [enhanced_content ?x] =>
    destruct (enhanced_content x) end; [|discriminate].
  inversion H; subst w' s'; clear H. unfold Spec.push.
  destruct (last (text_stack w) "" =? content);
    destruct (1 <? length _)%nat; reflexivity.
Qed.

End ApplyProofs.

Section ApplyExamples.
Import ChatWindow Examples.

(** C7 on the code. The source window cannot be activated: the paste returns
    [False], but the clipboard keeps the text that was written to it (here
    ["new"] over ["old"]), nothing is written back and no restoration is
    scheduled, as [failed_apply_schedules_nothing] shows for every failure. *)
Theorem failed_paste_leaves_clipboard_overwritten :
  let r := _apply_text_to_source_window window_gone (__init__ "A" (Some 1))
             "new" "Pasted" (desktop "old") in
  fst r = Ok false
  /\ clipboard (snd r) = "new"
  /\ timers (snd r) = []
  /\ trace (snd r)
     = [Activate 1; GetActiveWindow; PyperclipCopy "new"; PyperclipPaste].
Proof. vm_compute. repeat split. Qed.

End ApplyExamples.

(** ** Provider failures *)

Section FailureProofs.
Import ChatWindow Session LlmService.
Variable env : Env.

(** A result that the handler takes without raising is handled as text or
    as no suggestion at all. *)
Lemma hand_over_ok message role enhanced w s w' s' :
  _update_gui_from_thread_any message role enhanced w s = (Ok w', s') ->
  exists suggestion,
    _update_gui_from_thread message role suggestion w s = (Ok w', s').
Proof.
  unfold _update_gui_from_thread_any.
  destruct enhanced as [value|]; [|eauto].
  destruct value as [|b|lexeme|text|items|members];
    try destruct b; try destruct items; try destruct members;
    destruct ((role =? "assistant") && categorized message);
    cbn; intros H; try discriminate H; eauto.
Qed.


Lemma skipn_front {A} (l tail : list A) : skipn (length l) (l ++ tail) = tail.
Proof. induction l; simpl; auto. Qed.



(** An empty reply counts as a failure of the third kind. *)
Example blank_reply_is_no_response :
  invoke_chain (fun _ => Ok "  ") "question"
  = "NO_RESPONSE_ERROR: No response received from the LLM service. The service might be experiencing high load.".
Proof. vm_compute. reflexivity. Qed.

End FailureProofs.

Section FailureExamples.
Import ChatWindow Session Examples.


End FailureExamples.

(** ** Single flight *)

Section PipelineProofs.
Import ChatWindow Session.
Variable env : Env.

Lemma init_single_flight initial source :
  single_flight_inv (__init__ initial source).
Proof.
  unfold single_flight_inv; cbn. repeat split; try lia; congruence.
Qed.

(** While a worker is out the handler returns at its first test. *)
Lemma send_ignored_when_disabled w :
  user_input_state w = disabled -> user_input w = "" ->
  _send_message_event w = w.
Proof.
  intros _ E. unfold _send_message_event. rewrite E. reflexivity.
Qed.

Lemma send_keeps_single_flight w :
  single_flight_inv w -> single_flight_inv (_send_message_event w).
Proof.
  intros (Hlen & Hout & Hdis). unfold _send_message_event.
  destruct (Str.truthy (Str.strip (user_input w))) eqn:T; cbn [negb];
    [|exact (conj Hlen (conj Hout Hdis))].
  assert (Hn : user_input_state w = normal).
  { destruct (user_input_state w) eqn:E; [reflexivity|].
    rewrite (Hdis eq_refl) in T. discriminate T. }
  assert (Hw : workers w = []).
  { destruct (workers w) as [|j l] eqn:E; [reflexivity|].
    destruct Hout as [D _]; congruence. }
  unfold user_input_delete. rewrite Hn.
  match goal with |- context [if ?c then _ else _] => destruct c end;
    unfold single_flight_inv; cbn; rewrite Hw; cbn;
    repeat split; auto; congruence.
Qed.

Lemma same_inputs_refl w : same_inputs w w.
Proof. repeat split. Qed.

Lemma same_inputs_keeps_single_flight w w' :
  same_inputs w w' -> single_flight_inv w -> single_flight_inv w'.
Proof.
  intros (Hw & Hi & Hs & Hb) (Hlen & Hout & Hdis).
  unfold single_flight_inv. rewrite Hw, Hi, Hs, Hb. auto.
Qed.

Lemma preview_same_inputs w s w' s' :
  _update_paste_preview w s = (Ok w', s') -> same_inputs w w' /\ s' = s.
Proof.
  unfold _update_paste_preview. destruct (enhanced_content w); [|discriminate].
  intros H; inversion H; subst. split; [repeat split|reflexivity].
Qed.

Lemma undo_same_inputs w s w' s' :
  _undo_action env w s = (Ok w', s') -> same_inputs w w'.
Proof.
  unfold _undo_action. destruct (1 <? length (text_stack w))%nat.
  2:{ intros H; inversion H; apply same_inputs_refl. }
  intros H. apply bind_ok in H. destruct H as (current & s1 & Ht & H).
  apply bind_ok in H. destruct H as (w1 & s2 & Hp & H).
  apply preview_same_inputs in Hp. destruct Hp as [(A & B & C & D) ->].
  apply bind_ok in H. destruct H as (ok & s3 & _ & H).
  inversion H; subst w' s'; clear H.
  unfold same_inputs.
  destruct (length (text_stack w1) =? 1)%nat; cbn;
    rewrite A, B, C, D; repeat split.
Qed.

Lemma paste_same_inputs w s w' s' :
  _paste_enhanced_content env w s = (Ok w', s') -> same_inputs w w'.
Proof.
  unfold _paste_enhanced_content.
  destruct (enhanced_content w) as [content|].
  2:{ intros H. apply bind_ok in H. destruct H as (u & s1 & _ & H).
      inversion H; apply same_inputs_refl. }
  destruct (negb (Str.truthy content)).
  { intros H. apply bind_ok in H. destruct H as (u & s1 & _ & H).
    inversion H; apply same_inputs_refl. }
  intros H. apply bind_ok in H. destruct H as (ok & s1 & _ & H).
  destruct ok; [|inversion H; apply same_inputs_refl].
  apply bind_ok in H. destruct H as (current & s2 & _ & H).
  apply preview_same_inputs in H. destruct H as [(A & B & C & D) _].
  unfold same_inputs. rewrite A, B, C, D.
  destruct (current =? content);
    destruct (1 <? length _)%nat; cbn; repeat split.
Qed.

(** Handing a result back: the worker leaves the list, the entry text
    stays, the inputs are enabled again or left as they were. *)
Lemma update_gui_inputs message role suggestion w s w' s' :
  _update_gui_from_thread message role suggestion w s = (Ok w', s') ->
  workers w' = workers w /\ user_input w' = user_input w
  /\ (user_input_state w' = normal \/ user_input_state w' = user_input_state w).
Proof.
  unfold _update_gui_from_thread.
  destruct ((role =? "assistant") && categorized message).
  { destruct (Str.split1 ":" message) as [head tail].
    intros H; inversion H; subst. cbn. auto. }
  intros H. apply bind_ok in H. destruct H as (w1 & s1 & Hm & H).
  assert (K : same_inputs w w1).
  { destruct suggestion as [new_content|];
      [|inversion Hm; subst; repeat split].
    destruct (Str.truthy new_content); [|inversion Hm; subst; repeat split].
    apply preview_same_inputs in Hm. destruct Hm as [(A & B & C & D) _].
    unfold same_inputs. rewrite A, B, C, D.
    destruct (enhanced_content _) as [current|];
      [destruct (new_content =? current)|]; cbn; repeat split. }
  destruct K as (A & B & C & D).
  inversion H; subst w' s'; clear H.
  destruct (role =? "error"); cbn; rewrite ?A, ?B, ?C; auto.
Qed.

Lemma dispatch_keeps_single_flight ev st st' :
  single_flight_inv (fst st) -> dispatch env ev st = Some st' ->
  single_flight_inv (fst st').
Proof.
  destruct st as [w s]. cbn [fst]. intros I H.
  destruct ev; cbn [dispatch] in H.
  - destruct (user_input_state w) eqn:E; inversion H; subst; cbn [fst];
      [|exact I].
    destruct I as (Hlen & Hout & Hdis). unfold single_flight_inv. cbn.
    split; [exact Hlen|split; [exact Hout|intros D; congruence]].
  - inversion H; subst. apply send_keeps_single_flight, I.
  - destruct (send_button_state w); inversion H; subst; cbn [fst];
      [apply send_keeps_single_flight|]; exact I.
  - destruct (paste_frame_shown w); [|inversion H; subst; exact I].
    destruct (_paste_enhanced_content env w s) as [[w1|e] s1] eqn:E;
      [|discriminate]. inversion H; subst; cbn [fst].
    eapply same_inputs_keeps_single_flight; [eapply paste_same_inputs, E|exact I].
  - destruct (paste_frame_shown w && _); [|inversion H; subst; exact I].
    destruct (_undo_action env w s) as [[w1|e] s1] eqn:E;
      [|discriminate]. inversion H; subst; cbn [fst].
    eapply same_inputs_keeps_single_flight; [eapply undo_same_inputs, E|exact I].
  - destruct (workers w) as [|job rest] eqn:W; [discriminate|].
    destruct (run_job w chain job) as [[message role] enhanced].
    destruct (_update_gui_from_thread_any _ _ _ _ s) as [[w1|e] s1] eqn:E0;
      [|discriminate].
    apply hand_over_ok in E0. destruct E0 as (suggestion & E). inversion H; subst; cbn [fst].
    apply update_gui_inputs in E. cbn in E. destruct E as (A & B & C).
    destruct I as (Hlen & Hout & Hdis). rewrite W in Hlen. cbn in Hlen.
    assert (R : rest = []) by (destruct rest; [reflexivity|cbn in Hlen; lia]).
    rewrite R in A. unfold single_flight_inv. rewrite A, B. cbn.
    split; [lia|split; [congruence|]].
    destruct C as [C|C]; rewrite C; [discriminate|exact Hdis].
  - destruct (timers s) as [|[text original] rest]; [discriminate|].
    inversion H; subst; exact I.
  - inversion H; subst; exact I.
Qed.

Lemma run_keeps_single_flight evs st st' :
  single_flight_inv (fst st) -> run env evs st = Some st' ->
  single_flight_inv (fst st').
Proof.
  revert st. induction evs as [|ev evs IH]; intros st I H; simpl in H.
  - inversion H; subst; exact I.
  - destruct (dispatch env ev st) as [st1|] eqn:E; [|discriminate].
    eapply IH; [eapply dispatch_keeps_single_flight; eauto|exact H].
Qed.

(** While a worker is out, an attempt to submit changes nothing at all. *)
Lemma submit_ignored_while_awaiting ev w s :
  single_flight_inv w -> workers w <> [] -> is_submit ev ->
  dispatch env ev (w, s) = Some (w, s).
Proof.
  intros (Hlen & Hout & Hdis) N S. destruct (Hout N) as [D B].
  destruct ev; try contradiction; cbn [dispatch].
  - rewrite D. reflexivity.
  - rewrite (send_ignored_when_disabled w D (Hdis D)). reflexivity.
  - rewrite B. reflexivity.
Qed.

(** C2. In every state that a session reaches, at most one worker is out;
    and while one is (the pipeline awaits a response), typing, pressing
    Return and clicking Send, in any number and order, leave the window and
    its surroundings exactly as they are: no second worker is started and no
    user turn is appended. *)
Theorem single_flight initial source s0 evs w s :
  run env evs (__init__ initial source, s0) = Some (w, s) ->
  length (workers w) <= 1
  /\ (pipeline_state w = AwaitingResponse ->
      forall submits, Forall is_submit submits ->
        run env submits (w, s) = Some (w, s)).
Proof.
  intros R.
  assert (I : single_flight_inv w).
  { apply (run_keeps_single_flight evs (__init__ initial source, s0) (w, s));
      [apply init_single_flight|exact R]. }
  split; [apply I|].
  intros A submits F.
  assert (N : workers w <> []).
  { unfold pipeline_state in A. destruct (workers w); [discriminate|discriminate]. }
  induction F as [|ev submits S _ IH]; [reflexivity|].
  cbn [run]. rewrite (submit_ignored_while_awaiting ev w s I N S). exact IH.
Qed.

End PipelineProofs.

(** ** The theorems at work on concrete sessions *)

Section Witnesses.
Import ClipboardHandler ChatWindow Session Examples.

(** The second strategy changes the clipboard and then raises: capture
    returns, and the clipboard holds ["old"] again. *)
Lemma capture_restores_clipboard_witness :
  exists r s',
    get_selected_text_via_copy faulty (desktop "old") = (Ok r, s')
    /\ clipboard s' = "old".
Proof.
  apply (capture_restores_clipboard faulty (desktop "old"));
    [reflexivity|intros s'; reflexivity].
Defined.

(** The chord changes nothing, holding the keys does: the second reading is
    returned. *)
Lemma capture_returns_first_changed_witness :
  fst (get_selected_text_via_copy hold_needed (desktop "old"))
  = Ok (Spec.first_changed "old"
          (readings hold_needed (methods hold_needed)
             (snd (_save_clipboard hold_needed (desktop "old")))))
  /\ fst (get_selected_text_via_copy hold_needed (desktop "old"))
     <> Ok (Some "").
Proof.
  apply (capture_returns_first_changed hold_needed (desktop "old")).
  reflexivity.
Defined.

Lemma single_flight_witness :
  length (workers (fst awaiting)) <= 1
  /\ (pipeline_state (fst awaiting) = AwaitingResponse ->
      forall submits, Forall is_submit submits ->
        run quiet submits (fst awaiting, snd awaiting)
        = Some (fst awaiting, snd awaiting)).
Proof.
  apply (single_flight quiet "A" (Some 1) (desktop "old")
           [Type_text "q1"; Press_return]).
  vm_compute. reflexivity.
Defined.

Lemma delayed_restore_witness :
  let s1 := snd (_apply_text_to_source_window quiet (__init__ "A" (Some 1))
                   "new" "Pasted" (desktop "old")) in
  timers s1 = (timers (desktop "old") ++ [("new", clipboard (desktop "old"))])%list
  /\ forall s2,
       let s3 := snd (restore_clipboard quiet "new" (clipboard (desktop "old")) s2) in
       (clipboard s2 <> "new" -> clipboard s3 = clipboard s2)
       /\ (clipboard s3 <> clipboard s2 ->
           clipboard s2 = "new" /\ clipboard s3 = clipboard (desktop "old")).
Proof.
  intros s1.
  apply (delayed_restore_spares_newer_content quiet (__init__ "A" (Some 1))
           "new" "Pasted" (desktop "old") s1).
  vm_compute. reflexivity.
Defined.

Lemma apply_without_source_window_witness :
  exists s',
    _apply_text_to_source_window quiet (__init__ "A" None) "new" "Pasted"
      (desktop "old") = (Ok false, s')
    /\ clipboard s' = "new"
    /\ timers s' = timers (desktop "old")
    /\ trace s'
       = (PyperclipCopy "new" :: PyperclipPaste :: trace (desktop "old"))%list.
Proof.
  apply (apply_without_source_window quiet (__init__ "A" None) "new" "Pasted"
           (desktop "old"));
    [discriminate|reflexivity|reflexivity|reflexivity].
Defined.



End Witnesses.

(** * Further properties of the code *)

(** ** Capture *)

Section CaptureMore.
Import ClipboardHandler Observe.
Variable env : Env.

Lemma save_returns s :
  exists saved s',
    _save_clipboard env s = (Ok saved, s')
    /\ _original_clipboard s' = saved
    /\ writes s' = writes s
    /\ (saved = None \/ (raises env PyperclipPaste s = None
                         /\ saved = Some (clipboard s))).
Proof.
  unfold _save_clipboard, try_except, bind, pyperclip_paste, modify, ret.
  destruct (raises env PyperclipPaste s) eqn:R; cbn.
  - exists None. eexists. repeat split; auto.
  - exists (Some (clipboard s)). eexists. repeat split; auto.
Qed.

Lemma interact_keeps_writes c :
  is_write c = false -> keeps writes (interact env c).
Proof.
  intros W s. unfold interact, writes.
  destruct (raises env c s); cbn; rewrite W; reflexivity.
Qed.

Lemma paste_keeps_writes : keeps writes (pyperclip_paste env).
Proof.
  intros s. unfold pyperclip_paste.
  destruct (raises env PyperclipPaste s); reflexivity.
Qed.

Lemma methods_keep_writes : Forall (keeps writes) (methods env).
Proof.
  unfold methods, keyboard_press, keyboard_release,
    keyboard_press_and_release, time_sleep.
  repeat constructor;
    repeat (apply keeps_bind; [|intros _]);
    apply interact_keeps_writes; reflexivity.
Qed.

(** The loop leaves alone whatever its strategies, the settle delay and the
    reading leave alone. *)
Lemma try_methods_keeps {X} (proj : Sys -> X) original_content ms :
  keeps proj (time_sleep env 300) -> keeps proj (pyperclip_paste env) ->
  Forall (keeps proj) ms ->
  keeps proj (try_methods env original_content ms).
Proof.
  intros Hs Hp. induction 1 as [|m ms Hm _ IH]; simpl.
  - apply keeps_ret.
  - apply keeps_bind; [exact Hm|intros _].
    apply keeps_bind; [exact Hs|intros _].
    apply keeps_bind; [exact Hp|intros c].
    destruct (copied c original_content); [apply keeps_ret|exact IH].
Qed.

Lemma guarded_loop_frame original_content s :
  exists r s',
    try_except (try_methods env original_content (methods env))
               (fun _ => ret None) s = (Ok r, s')
    /\ _original_clipboard s' = _original_clipboard s
    /\ writes s' = writes s.
Proof.
  pose proof (keeps_try_methods env original_content _ (keeps_methods env) s) as K.
  pose proof (try_methods_keeps writes original_content _
                (interact_keeps_writes (TimeSleep 300) eq_refl) paste_keeps_writes
                methods_keep_writes s) as W.
  unfold try_except.
  destruct (try_methods env original_content (methods env) s) as [[r|e] s1];
    simpl in K, W.
  - exists r, s1. auto.
  - exists None, s1. auto.
Qed.

(** X1. Capture lets no exception escape, whatever fails, and it gives up its
    snapshot: the module global is [None] afterwards, so that restoring
    again does nothing. *)
Theorem capture_returns_and_releases s :
  exists r s',
    get_selected_text_via_copy env s = (Ok r, s')
    /\ _original_clipboard s' = None
    /\ _restore_clipboard env s' = (Ok tt, s').
Proof.
  unfold get_selected_text_via_copy, try_finally. unfold bind at 1.
  destruct (save_returns s) as (saved & s0 & E0 & O0 & _ & _). rewrite E0.
  destruct (guarded_loop_frame saved s0) as (r & s1 & E1 & O1 & _). rewrite E1.
  assert (R : exists s2, _restore_clipboard env s1 = (Ok tt, s2)
                         /\ _original_clipboard s2 = None).
  { unfold _restore_clipboard, bind, gets, try_except, pyperclip_copy, modify, ret.
    destruct (_original_clipboard s1) as [c|] eqn:O.
    - destruct (raises env (PyperclipCopy c) s1); eexists; split; reflexivity.
    - exists s1. split; [reflexivity|exact O]. }
  destruct R as (s2 & E2 & O2). rewrite E2. exists r, s2.
  split; [reflexivity|]. split; [exact O2|].
  unfold _restore_clipboard, bind, gets. rewrite O2. reflexivity.
Qed.

Lemma capture_writes s :
  exists r s',
    get_selected_text_via_copy env s = (r, s')
    /\ (writes s' = writes s
        \/ (raises env PyperclipPaste s = None
            /\ writes s' = PyperclipCopy (clipboard s) :: writes s)).
Proof.
  unfold get_selected_text_via_copy, try_finally. unfold bind at 1.
  destruct (save_returns s) as (saved & s0 & E0 & O0 & W0 & S0). rewrite E0.
  destruct (guarded_loop_frame saved s0) as (r & s1 & E1 & O1 & W1). rewrite E1.
  rewrite O0 in O1.
  unfold _restore_clipboard, bind, gets, try_except, pyperclip_copy, modify, ret.
  rewrite O1.
  destruct S0 as [->|[R ->]].
  - eexists. eexists. split; [reflexivity|]. left. congruence.
  - destruct (raises env (PyperclipCopy (clipboard s)) s1);
      (eexists; eexists; split; [reflexivity|]); right; (split; [exact R|]);
      unfold writes in *; cbn; congruence.
Qed.

(** X2. The only thing capture ever writes to the clipboard is the content it
    read on entry, and it writes it at most once; when that reading failed
    it writes nothing. *)
Theorem capture_writes_only_the_saved_content s :
  let s' := snd (get_selected_text_via_copy env s) in
  writes s' = writes s
  \/ (raises env PyperclipPaste s = None
      /\ writes s' = PyperclipCopy (clipboard s) :: writes s).
Proof.
  intros s'. destruct (capture_writes s) as (r & s1 & E & H).
  subst s'. rewrite E. exact H.
Qed.

End CaptureMore.

(** ** Paste-back *)

Section ApplyMore.
Import ChatWindow Observe.
Variable env : Env.

(** X3. The paste schedules a restoration exactly when it reports success, and
    then exactly one; no exception leaves it. *)
Theorem paste_schedules_iff_success self text action s :
  exists ok s',
    _apply_text_to_source_window env self text action s = (Ok ok, s')
    /\ timers s'
       = (if ok then timers s ++ [(text, clipboard s)] else timers s)%list.
Proof.
  destruct (apply_returns env self text action s) as (ok & s' & E).
  exists ok, s'. split; [exact E|]. destruct ok.
  - apply apply_success in E. destruct E as (source & _ & T & _). exact T.
  - apply failed_apply_schedules_nothing in E. exact E.
Qed.

(** X4. A successful paste gives the focus back to the window that had it. *)
Theorem paste_returns_focus self text action s s1 previous :
  _apply_text_to_source_window env self text action s = (Ok true, s1) ->
  foreground s = Some previous ->
  foreground s1 = Some previous.
Proof.
  unfold _apply_text_to_source_window. intros H F.
  destruct (negb (Str.truthy text)); [discriminate|].
  apply try_false_true in H.
  apply bind_ok in H. destruct H as (original & sa & Hp & H).
  apply paste_ok in Hp. destruct Hp as [-> ->].
  apply bind_ok in H. destruct H as ([] & sb & Hc & H).
  apply copy_ok in Hc. subst sb.
  destruct (source_window self) as [source|]; [|discriminate].
  apply try_false_true in H.
  apply bind_ok in H. destruct H as (current_window & s2 & Hg & H).
  apply getActiveWindow_ok in Hg. destruct Hg as [-> ->].
  cbn [foreground log set_clipboard] in H. rewrite F in H.
  apply bind_ok in H. destruct H as ([] & s3 & Ha & H).
  do 4 (apply bind_ok in H; destruct H as ([] & ? & _ & H)).
  apply bind_ok in H. destruct H as ([] & s8 & _ & H).
  do 2 (apply bind_ok in H; destruct H as ([] & ? & _ & H)).
  apply bind_ok in H. destruct H as ([] & s11 & Hw & H).
  apply activate_ok in Hw.
  apply bind_ok in H. destruct H as ([] & s12 & Hf & H).
  apply flash_ok in Hf.
  apply bind_ok in H. destruct H as ([] & s13 & Ht & H).
  apply Timer_start_ok in Ht.
  inversion H; subst. reflexivity.
Qed.

Lemma keeps_map {X Y A} (proj : Sys -> X) (g : X -> Y) (m : M A) :
  keeps proj m -> keeps (fun s => g (proj s)) m.
Proof. intros K s. unfold keeps in K. rewrite K. reflexivity. Qed.

Lemma keeps_presses {A} (m : M A) :
  keeps left_presses m -> presses_at_most 0 m.
Proof. intros K s. rewrite K. lia. Qed.

Lemma presses_bind {A B} k1 k2 (m : M A) (f : A -> M B) :
  presses_at_most k1 m -> (forall a, presses_at_most k2 (f a)) ->
  presses_at_most (k1 + k2) (bind m f).
Proof.
  intros Hm Hf s. unfold bind. specialize (Hm s).
  destruct (m s) as [[a|e] s1]; simpl in *; [|lia].
  specialize (Hf a s1). lia.
Qed.

Lemma presses_try {A} k (m : M A) (h : string -> M A) :
  presses_at_most k m -> (forall e, keeps left_presses (h e)) ->
  presses_at_most k (try_except m h).
Proof.
  intros Hm Hh s. unfold try_except. specialize (Hm s).
  destruct (m s) as [[a|e] s1]; simpl in *; [exact Hm|].
  rewrite Hh. exact Hm.
Qed.

Ltac call_presses :=
  let s := fresh "s" in
  intros s; cbv beta delta [interact pyperclip_paste pyperclip_copy activate
    getActiveWindow _flash_paste_button_success Timer_start
    keyboard_press keyboard_release keyboard_press_and_release time_sleep];
  cbv zeta; destruct (raises env _ s); reflexivity.

Lemma paste_keeps_presses : keeps left_presses (pyperclip_paste env).
Proof. call_presses. Qed.

Lemma copy_keeps_presses text : keeps left_presses (pyperclip_copy env text).
Proof. call_presses. Qed.

Lemma getActiveWindow_keeps_presses : keeps left_presses (getActiveWindow env).
Proof. call_presses. Qed.

Lemma activate_keeps_presses w : keeps left_presses (activate env w).
Proof. call_presses. Qed.

Lemma flash_keeps_presses message :
  keeps left_presses (_flash_paste_button_success env message).
Proof. call_presses. Qed.

Lemma Timer_start_keeps_presses n text original :
  keeps left_presses (Timer_start env n text original).
Proof. call_presses. Qed.

Lemma interact_keeps_presses c :
  is_left c = false -> keeps left_presses (interact env c).
Proof.
  intros L s. unfold interact, left_presses.
  destruct (raises env c s); cbn; rewrite L; reflexivity.
Qed.

Lemma left_press_once :
  presses_at_most 1 (keyboard_press_and_release env "left").
Proof.
  intros s. unfold keyboard_press_and_release, interact, left_presses.
  destruct (raises env _ s); cbn; lia.
Qed.

Lemma selection_loop_presses n :
  presses_at_most n
    (for_range n (keyboard_press_and_release env "left" ;; time_sleep env 1)).
Proof.
  induction n as [|n IH]; simpl.
  - intros s. cbn. lia.
  - change (S n) with (1 + n).
    apply presses_bind; [|intros _; exact IH].
    change 1 with (1 + 0). apply presses_bind; [apply left_press_once|].
    intros _. apply keeps_presses, interact_keeps_presses. reflexivity.
Qed.

Lemma presses_weaken {A} k k' (m : M A) :
  presses_at_most k m -> k <= k' -> presses_at_most k' m.
Proof. intros H L s. specialize (H s). lia. Qed.

Lemma len_le_length text : Str.len text <= String.length text.
Proof.
  induction text as [|c text IH]; cbn; [lia|].
  destruct (Str.is_continuation c); lia.
Qed.

(** X5. Whatever happens during a paste, the selection is extended by at most
    one left-arrow press per character of the text, and never by more than
    1000. *)
Theorem paste_selection_is_bounded self text action s :
  let s' := snd (_apply_text_to_source_window env self text action s) in
  left_presses s' <= left_presses s + Nat.min (String.length text) 1000
  /\ left_presses s' <= left_presses s + 1000
  /\ left_presses s' <= left_presses s + Nat.min (Str.len text) 1000.
Proof.
  intros s'.
  assert (B : presses_at_most (Nat.min (Str.len text) 1000)
                (_apply_text_to_source_window env self text action)).
  { unfold _apply_text_to_source_window.
    destruct (negb (Str.truthy text)).
    { intros s0. cbn. lia. }
    apply presses_try; [|intros e s0; reflexivity].
    eapply presses_weaken.
    - eapply presses_bind; [apply keeps_presses, paste_keeps_presses|intros original].
      eapply presses_bind; [apply keeps_presses, copy_keeps_presses|intros _].
      instantiate (1 := Nat.min (Str.len text) 1000).
      destruct (source_window self) as [source|];
        [|intros s0; cbn; lia].
      apply presses_try; [|intros e s0; reflexivity].
      eapply presses_weaken.
      + eapply presses_bind;
          [apply keeps_presses, getActiveWindow_keeps_presses|intros current].
        eapply presses_bind;
          [apply keeps_presses, activate_keeps_presses|intros _].
        do 4 (eapply presses_bind;
              [apply keeps_presses, interact_keeps_presses; reflexivity|intros _]).
        eapply presses_bind; [apply selection_loop_presses|intros _].
        do 2 (eapply presses_bind;
              [apply keeps_presses, interact_keeps_presses; reflexivity|intros _]).
        eapply presses_bind.
        { instantiate (1 := 0). destruct current;
            [apply keeps_presses, activate_keeps_presses|intros s0; cbn; lia]. }
        intros _.
        eapply presses_bind;
          [apply keeps_presses, flash_keeps_presses|intros _].
        eapply presses_bind;
          [apply keeps_presses, Timer_start_keeps_presses|intros _].
        instantiate (1 := 0). intros s0. cbn. lia.
      + lia.
    - lia. }
  specialize (B s). fold s' in B.
  pose proof (len_le_length text). lia.
Qed.


Lemma returns_ret {A} (a : A) s (Q : A -> Sys -> Prop) :
  Q a s -> returns (ret a) s Q.
Proof. intros H. exists a, s. auto. Qed.

Lemma returns_bind {A B} (m : M A) (f : A -> M B) s
    (Q1 : A -> Sys -> Prop) (Q : B -> Sys -> Prop) :
  returns m s Q1 -> (forall a s1, Q1 a s1 -> returns (f a) s1 Q) ->
  returns (bind m f) s Q.
Proof.
  intros (a & s1 & E & H1) Hf. destruct (Hf a s1 H1) as (b & s2 & E2 & H2).
  exists b, s2. unfold bind. rewrite E. auto.
Qed.

Lemma returns_try {A} (m : M A) (h : string -> M A) s (Q : A -> Sys -> Prop) :
  returns m s Q -> returns (try_except m h) s Q.
Proof.
  intros (a & s1 & E & H1). exists a, s1. unfold try_except. rewrite E. auto.
Qed.

Lemma unchanged_refl s : unchanged s s.
Proof. repeat split. Qed.

Lemma unchanged_trans s1 s2 s3 :
  unchanged s1 s2 -> unchanged s2 s3 -> unchanged s1 s3.
Proof. unfold unchanged. intuition congruence. Qed.

Section Quiet.
Hypothesis R : reliable env.
Hypothesis U : undisturbed env.

Lemma paste_quiet s :
  returns (pyperclip_paste env) s (fun a s' => a = clipboard s /\ unchanged s s').
Proof.
  unfold returns, pyperclip_paste. rewrite R.
  eexists. eexists. split; [reflexivity|]. split; [reflexivity|repeat split].
Qed.

Lemma copy_quiet text s :
  returns (pyperclip_copy env text) s
    (fun _ s' => clipboard s' = text /\ foreground s' = foreground s
                 /\ timers s' = timers s).
Proof.
  unfold returns, pyperclip_copy. rewrite R.
  eexists. eexists. split; [reflexivity|]. repeat split.
Qed.

Lemma interact_quiet c s :
  returns (interact env c) s (fun _ s' => unchanged s s').
Proof.
  unfold returns, interact. rewrite R, U.
  eexists. eexists. split; [reflexivity|]. repeat split.
Qed.

Lemma activate_quiet w s :
  returns (activate env w) s
    (fun _ s' => clipboard s' = clipboard s /\ foreground s' = Some w
                 /\ timers s' = timers s).
Proof.
  unfold returns, activate. rewrite R, U.
  eexists. eexists. split; [reflexivity|]. repeat split.
Qed.

Lemma getActiveWindow_quiet s :
  returns (getActiveWindow env) s
    (fun a s' => a = foreground s /\ unchanged s s').
Proof.
  unfold returns, getActiveWindow. rewrite R.
  eexists. eexists. split; [reflexivity|]. split; [reflexivity|repeat split].
Qed.

Lemma flash_quiet message s :
  returns (_flash_paste_button_success env message) s
    (fun _ s' => unchanged s s').
Proof.
  unfold returns, _flash_paste_button_success. rewrite R.
  eexists. eexists. split; [reflexivity|]. repeat split.
Qed.

Lemma Timer_start_quiet n text original s :
  returns (Timer_start env n text original) s
    (fun _ s' => clipboard s' = clipboard s /\ foreground s' = foreground s
                 /\ timers s' = (timers s ++ [(text, original)])%list).
Proof.
  unfold returns, Timer_start. rewrite R.
  eexists. eexists. split; [reflexivity|]. repeat split.
Qed.

Lemma selection_loop_quiet n s :
  returns
    (for_range n (keyboard_press_and_release env "left" ;; time_sleep env 1)) s
    (fun _ s' => unchanged s s').
Proof.
  revert s. induction n as [|n IH]; intros s; simpl.
  - apply returns_ret, unchanged_refl.
  - eapply returns_bind.
    + eapply returns_bind; [apply interact_quiet|].
      intros ? s1 H1. cbv beta in H1.
      destruct (interact_quiet (TimeSleep 1) s1) as (u & s2 & E & H2).
      exists u, s2. split; [exact E|]. exact (unchanged_trans _ _ _ H1 H2).
    + intros ? s1 H1. destruct (IH s1) as (u & s2 & E & H2).
      exists u, s2. split; [exact E|]. exact (unchanged_trans _ _ _ H1 H2).
Qed.

(** With a working desktop that leaves the clipboard alone, the paste of a
    non-empty text into an existing source window succeeds, leaves the text
    on the clipboard and schedules the restoration of the previous
    content. *)
Lemma apply_quiet self text action source s :
  text <> "" -> source_window self = Some source ->
  exists s1,
    _apply_text_to_source_window env self text action s = (Ok true, s1)
    /\ clipboard s1 = text
    /\ timers s1 = (timers s ++ [(text, clipboard s)])%list.
Proof.
  intros Hne Hsrc.
  assert (G : returns (_apply_text_to_source_window env self text action) s
                (fun ok s1 => ok = true /\ clipboard s1 = text
                   /\ timers s1 = (timers s ++ [(text, clipboard s)])%list)).
  { unfold _apply_text_to_source_window.
    replace (Str.truthy text) with true
      by (unfold Str.truthy; destruct text; [congruence|reflexivity]).
    cbn [negb]. apply returns_try.
    eapply returns_bind; [apply paste_quiet|].
    intros original sa [-> (Ca & Fa & Ta)].
    eapply returns_bind; [apply copy_quiet|].
    intros ? sb (Cb & Fb & Tb). cbv beta.
    rewrite Hsrc. apply returns_try.
    eapply returns_bind; [apply getActiveWindow_quiet|].
    intros current s2 [-> (C2 & F2 & T2)].
    eapply returns_bind; [apply activate_quiet|].
    intros ? s3 (C3 & F3 & T3).
    eapply returns_bind; [apply interact_quiet|]. intros ? s4 (C4 & F4 & T4).
    eapply returns_bind; [apply interact_quiet|]. intros ? s5 (C5 & F5 & T5).
    eapply returns_bind; [apply interact_quiet|]. intros ? s6 (C6 & F6 & T6).
    eapply returns_bind; [apply interact_quiet|]. intros ? s7 (C7 & F7 & T7).
    eapply returns_bind; [apply selection_loop_quiet|].
    intros ? s8 (C8 & F8 & T8).
    eapply returns_bind; [apply interact_quiet|]. intros ? s9 (C9 & F9 & T9).
    eapply returns_bind; [apply interact_quiet|]. intros ? s10 (C10 & F10 & T10).
    eapply returns_bind with
      (Q1 := fun _ s' => clipboard s' = clipboard s10 /\ timers s' = timers s10).
    { destruct (foreground sb) as [window|].
      - destruct (activate_quiet window s10) as (u & s' & E & (A & _ & B)).
        exists u, s'. auto.
      - apply returns_ret. auto. }
    intros ? s11 (C11 & T11).
    eapply returns_bind; [apply flash_quiet|]. intros ? s12 (C12 & F12 & T12).
    eapply returns_bind; [apply Timer_start_quiet|].
    intros ? s13 (C13 & F13 & T13).
    apply returns_ret. split; [reflexivity|]. split; congruence. }
  destruct G as (ok & s1 & E & -> & C & T). exists s1. auto.
Qed.

(** X6. Round trip: the paste followed by its own timer puts the clipboard back
    to what it held before the paste, when nothing else wrote to it. *)
Theorem paste_then_timer_restores self text action source s :
  text <> "" -> source_window self = Some source ->
  let s1 := snd (_apply_text_to_source_window env self text action s) in
  timers s1 = (timers s ++ [(text, clipboard s)])%list
  /\ clipboard s1 = text
  /\ clipboard (snd (restore_clipboard env text (clipboard s) s1)) = clipboard s.
Proof.
  intros Hne Hsrc s1.
  destruct (apply_quiet self text action source s Hne Hsrc) as (s' & E & C & T).
  subst s1. rewrite E. cbn [snd]. split; [exact T|]. split; [exact C|].
  unfold restore_clipboard, try_except, bind, pyperclip_paste, pyperclip_copy.
  rewrite R. cbn [clipboard log]. rewrite C, String.eqb_refl, R. reflexivity.
Qed.

(** X7. Two pastes of different texts in a row, both timers still pending: the
    second snapshot is the text of the first paste, so once both timers have
    fired the clipboard holds that text and not what it held at the start. *)
Theorem second_paste_loses_the_original self first second action source s :
  first <> "" -> second <> "" -> first <> second ->
  source_window self = Some source ->
  let s1 := snd (_apply_text_to_source_window env self first action s) in
  let s2 := snd (_apply_text_to_source_window env self second action s1) in
  timers s2 = (timers s ++ [(first, clipboard s); (second, first)])%list
  /\ let s3 := snd (restore_clipboard env first (clipboard s) s2) in
     let s4 := snd (restore_clipboard env second first s3) in
     clipboard s4 = first.
Proof.
  intros H1 H2 Hd Hsrc s1 s2.
  destruct (apply_quiet self first action source s H1 Hsrc) as (t1 & E1 & C1 & T1).
  destruct (apply_quiet self second action source t1 H2 Hsrc) as (t2 & E2 & C2 & T2).
  subst s2 s1. rewrite E1. cbn [snd]. rewrite E2. cbn [snd].
  split; [rewrite T2, T1, C1, <- app_assoc; reflexivity|].
  cbv zeta.
  assert (E3 : snd (restore_clipboard env first (clipboard s) t2)
               = log PyperclipPaste t2).
  { unfold restore_clipboard, try_except, bind, pyperclip_paste.
    rewrite R. cbn [clipboard log]. rewrite C2.
    destruct (String.eqb_spec second first) as [E|_]; [congruence|reflexivity]. }
  rewrite E3.
  unfold restore_clipboard, try_except, bind, pyperclip_paste, pyperclip_copy.
  rewrite R. cbn [clipboard log]. rewrite C2, String.eqb_refl, R. reflexivity.
Qed.

End Quiet.
End ApplyMore.

(** ** The session as a whole *)

Section SessionMore.
Import ChatWindow Session Observe.
Variable env : Env.

Lemma truthy_nonempty text : Str.truthy text = true -> text <> "".
Proof. intros T E. subst. discriminate T. Qed.

Lemma nonempty_truthy text : text <> "" -> Str.truthy text = true.
Proof. unfold Str.truthy. destruct text; [congruence|reflexivity]. Qed.

Lemma init_session_inv initial source :
  initial <> "" -> session_inv (__init__ initial source).
Proof.
  intros N. split; [apply init_single_flight|]. split.
  - unfold history_inv. cbn.
    split; [exists []; reflexivity|].
    split; [constructor; [exact N|constructor]|].
    split; [intros c E; congruence|].
    split; [discriminate|intros W; congruence].
  - unfold status_inv. cbn. constructor.
Qed.

Lemma removelast_head (x : string) l :
  l <> [] -> removelast (x :: l) = x :: removelast l.
Proof. destruct l; [congruence|reflexivity]. Qed.

Lemma Forall_removelast {A} (P : A -> Prop) l :
  Forall P l -> Forall P (removelast l).
Proof.
  induction 1 as [|x l Hx Hl IH]; [constructor|].
  destruct l; [constructor|]. simpl. constructor; [exact Hx|exact IH].
Qed.

Lemma Forall_snoc {A} (P : A -> Prop) l x :
  Forall P l -> P x -> Forall P (l ++ [x]).
Proof. intros. apply Forall_app. split; [assumption|constructor; auto]. Qed.

(** The handler of Send: nothing changes, or a worker starts and the
    placeholder goes last. *)
Lemma send_cases w :
  _send_message_event w = w
  \/ exists job,
       workers (_send_message_event w) = (workers w ++ [job])%list
       /\ chat_display (_send_message_event w)
          = (chat_display w
             ++ [("user", ("You: " ++ Str.strip (user_input w))%string);
                 ("status", "Thinking...")])%list
       /\ text_stack (_send_message_event w) = text_stack w
       /\ initial_text (_send_message_event w) = initial_text w
       /\ enhanced_content (_send_message_event w) = None
       /\ paste_frame_shown (_send_message_event w) = false.
Proof.
  unfold _send_message_event.
  destruct (negb (Str.truthy (Str.strip (user_input w)))); [left; reflexivity|].
  right. unfold user_input_delete.
  destruct (user_input_state w);
    match goal with |- context [if ?c then _ else _] => destruct c end;
    eexists; cbn; rewrite <- app_assoc; repeat split.
Qed.

Lemma send_keeps_session_inv w :
  session_inv w -> session_inv (_send_message_event w).
Proof.
  intros (SF & H & St).
  split; [apply send_keeps_single_flight, SF|].
  destruct (send_cases w) as [E|(job & W & C & T & I & En & P)];
    [rewrite E; auto|].
  assert (Wn : workers w = []).
  { pose proof (send_keeps_single_flight w SF) as (L & _).
    rewrite W, length_app in L. cbn in L.
    destruct (workers w); [reflexivity|cbn in L; lia]. }
  destruct H as (H1 & H2 & H3 & H4 & H5). split.
  - unfold history_inv. rewrite T, I, En, P.
    split; [exact H1|]. split; [exact H2|].
    split; [intros c Ec; congruence|].
    split; [discriminate|intros _; split; reflexivity].
  - unfold status_inv in *. rewrite W, Wn in *. cbn [app].
    exists (chat_display w
            ++ [("user", ("You: " ++ Str.strip (user_input w))%string)])%list.
    split; [rewrite C, <- app_assoc; reflexivity|].
    apply Forall_snoc; [exact St|]. unfold not_status. cbn. discriminate.
Qed.

Lemma preview_fields w s w' s' :
  _update_paste_preview w s = (Ok w', s') ->
  text_stack w' = text_stack w /\ initial_text w' = initial_text w
  /\ enhanced_content w' = enhanced_content w
  /\ paste_frame_shown w' = paste_frame_shown w
  /\ chat_display w' = chat_display w.
Proof.
  unfold _update_paste_preview. destruct (enhanced_content w) eqn:E;
    [|discriminate]. intros H; inversion H; subst. cbn. rewrite E. auto.
Qed.

Lemma undo_fields w s w' s' :
  _undo_action env w s = (Ok w', s') ->
  initial_text w' = initial_text w /\ chat_display w' = chat_display w
  /\ paste_frame_shown w' = paste_frame_shown w
  /\ ((text_stack w' = text_stack w /\ enhanced_content w' = enhanced_content w)
      \/ (1 < length (text_stack w)
          /\ text_stack w' = removelast (text_stack w)
          /\ enhanced_content w'
             = Some (last (removelast (text_stack w)) ""))).
Proof.
  unfold _undo_action. destruct (1 <? length (text_stack w))%nat eqn:L.
  2:{ intros H; inversion H; subst. auto 6. }
  apply Nat.ltb_lt in L.
  intros H. apply bind_ok in H. destruct H as (current & s1 & Ht & H).
  apply top_is_last in Ht. cbn [text_stack set_text_stack] in Ht.
  destruct Ht as [-> ->].
  apply bind_ok in H. destruct H as (w1 & s2 & Hp & H).
  apply preview_fields in Hp. cbn in Hp. destruct Hp as (A & B & C & D & E).
  apply bind_ok in H. destruct H as (ok & s3 & _ & H).
  inversion H; subst w' s'; clear H.
  destruct (length (text_stack w1) =? 1)%nat; cbn;
    rewrite ?A, ?B, ?C, ?D, ?E; auto 8.
Qed.

Lemma undo_pops w s w' s' :
  1 < length (text_stack w) ->
  _undo_action env w s = (Ok w', s') ->
  text_stack w' = removelast (text_stack w)
  /\ enhanced_content w' = Some (last (removelast (text_stack w)) "").
Proof.
  intros L. unfold _undo_action.
  replace (1 <? length (text_stack w))%nat with true
    by (symmetry; apply Nat.ltb_lt; exact L).
  intros H. apply bind_ok in H. destruct H as (current & s1 & Ht & H).
  apply top_is_last in Ht. cbn [text_stack set_text_stack] in Ht.
  destruct Ht as [-> ->].
  apply bind_ok in H. destruct H as (w1 & s2 & Hp & H).
  apply preview_fields in Hp. cbn in Hp. destruct Hp as (A & B & C & D & E).
  apply bind_ok in H. destruct H as (ok & s3 & _ & H).
  inversion H; subst w' s'; clear H.
  destruct (length (text_stack w1) =? 1)%nat; cbn; rewrite ?A, ?C; auto.
Qed.

Lemma paste_fields w s w' s' :
  _paste_enhanced_content env w s = (Ok w', s') ->
  initial_text w' = initial_text w /\ chat_display w' = chat_display w
  /\ paste_frame_shown w' = paste_frame_shown w
  /\ enhanced_content w' = enhanced_content w
  /\ (text_stack w' = text_stack w
      \/ exists content,
           enhanced_content w = Some content /\ content <> ""
           /\ text_stack w' = (text_stack w ++ [content])%list).
Proof.
  unfold _paste_enhanced_content.
  destruct (enhanced_content w) as [content|] eqn:En.
  2:{ intros H. apply bind_ok in H. destruct H as (u & s1 & _ & H).
      inversion H; subst. auto 6. }
  destruct (Str.truthy content) eqn:T; cbn [negb].
  2:{ intros H. apply bind_ok in H. destruct H as (u & s1 & _ & H).
      inversion H; subst. auto 6. }
  intros H. apply bind_ok in H. destruct H as (ok & s1 & _ & H).
  destruct ok; [|inversion H; subst; auto 6].
  apply bind_ok in H. destruct H as (current & s2 & Ht & H).
  apply preview_fields in H. destruct H as (A & B & C & D & E).
  rewrite A, B, C, D, E.
  destruct (current =? content);
    destruct (1 <? length _)%nat; cbn; rewrite ?En;
    repeat split; auto;
    right; exists content; repeat split; auto using truthy_nonempty.
Qed.

Lemma run_job_role w chain job :
  snd (fst (run_job w chain job)) = "assistant".
Proof.
  destruct job; cbn; unfold _get_initial_response, _get_ai_response;
    destruct (_extract_enhanced_content _); reflexivity.
Qed.

(** Handing back a result of role assistant. *)
Lemma update_gui_fields message suggestion w s w' s' :
  _update_gui_from_thread message "assistant" suggestion w s = (Ok w', s') ->
  initial_text w' = initial_text w
  /\ (exists shown,
        chat_display w' = (removelast (chat_display w) ++ shown)%list
        /\ Forall not_status shown)
  /\ ((text_stack w' = text_stack w /\ enhanced_content w' = enhanced_content w
       /\ paste_frame_shown w' = paste_frame_shown w)
      \/ (exists new_content,
            new_content <> "" /\ enhanced_content w' = Some new_content
            /\ paste_frame_shown w' = true
            /\ (text_stack w' = (text_stack w ++ [new_content])%list
                \/ (text_stack w' = text_stack w
                    /\ enhanced_content w = Some new_content)))).
Proof.
  unfold _update_gui_from_thread. cbn [String.eqb Ascii.eqb Bool.eqb andb].
  change ("assistant" =? "assistant") with true. cbn [andb].
  destruct (categorized message).
  { destruct (Str.split1 ":" message) as [head tail].
    intros H; inversion H; subst. cbn. split; [reflexivity|]. split; [|auto].
    eexists. rewrite <- app_assoc. split; [reflexivity|].
    repeat constructor; unfold not_status; cbn; discriminate. }
  change ("assistant" =? "error") with false. cbv iota.
  intros H. apply bind_ok in H. destruct H as (w1 & s1 & Hm & H).
  inversion H; subst w' s'; clear H. cbn.
  assert (Sh : Forall not_status [("assistant", prefix_of "assistant" ++ message)]).
  { repeat constructor. unfold not_status. cbn. discriminate. }
  destruct suggestion as [new_content|].
  2:{ inversion Hm; subst. cbn. split; [reflexivity|]. split; [eauto|auto]. }
  destruct (Str.truthy new_content) eqn:T.
  2:{ inversion Hm; subst. cbn. split; [reflexivity|]. split; [eauto|auto]. }
  apply preview_fields in Hm.
  cbn [enhanced_content text_stack initial_text paste_frame_shown chat_display
       _append_to_chat _remove_last_message set_chat_display
       set_paste_frame_shown set_enhanced_content] in Hm.
  destruct Hm as (A & B & C & D & E). apply truthy_nonempty in T.
  split.
  { rewrite B. destruct (enhanced_content w) as [current|];
      [destruct (new_content =? current)|]; reflexivity. }
  split.
  { eexists. split; [|exact Sh]. rewrite E.
    destruct (enhanced_content w) as [current|];
      [destruct (new_content =? current)|]; reflexivity. }
  right. exists new_content. split; [exact T|]. split; [exact C|].
  split; [exact D|]. rewrite A.
  destruct (enhanced_content w) as [current|] eqn:En;
    [destruct (String.eqb_spec new_content current) as [Eq|Ne]|]; cbn.
  - right. split; [reflexivity|congruence].
  - left. reflexivity.
  - left. reflexivity.
Qed.

Lemma dispatch_keeps_session_inv ev st st' :
  session_inv (fst st) -> dispatch env ev st = Some st' ->
  session_inv (fst st').
Proof.
  destruct st as [w s]. cbn [fst]. intros I H.
  assert (SF' : single_flight_inv (fst st')).
  { eapply dispatch_keeps_single_flight; [|exact H]. apply I. }
  destruct I as (SF & Hi & St).
  destruct ev; cbn [dispatch] in H.
  - destruct (user_input_state w); inversion H; subst; cbn [fst] in *;
      (split; [exact SF'|split; [exact Hi|exact St]]).
  - inversion H; subst. apply send_keeps_session_inv.
    split; [exact SF|split; [exact Hi|exact St]].
  - destruct (send_button_state w); inversion H; subst; cbn [fst];
      [apply send_keeps_session_inv|];
      (split; [exact SF|split; [exact Hi|exact St]]).
  - destruct (paste_frame_shown w) eqn:P;
      [|inversion H; subst; split; [exact SF|split; [exact Hi|exact St]]].
    destruct (_paste_enhanced_content env w s) as [[w1|e] s1] eqn:E;
      [|discriminate]. inversion H; subst; cbn [fst] in *.
    pose proof (paste_same_inputs env _ _ _ _ E) as (Wk & _).
    apply paste_fields in E. destruct E as (A & B & C & D & T).
    destruct Hi as (H1 & H2 & H3 & H4 & H5).
    split; [exact SF'|]. split.
    + unfold history_inv. rewrite A, C, D, Wk.
      destruct T as [->|(content & En & Ne & ->)].
      * split; [exact H1|]. split; [exact H2|]. split; [exact H3|].
        split; [exact H4|exact H5].
      * split; [destruct H1 as (rest & ->); eexists; reflexivity|].
        split; [apply Forall_snoc; assumption|].
        split; [intros c Ec; rewrite last_last; congruence|].
        split; [exact H4|exact H5].
    + unfold status_inv in *. rewrite Wk, B. exact St.
  - destruct (paste_frame_shown w && _) eqn:P;
      [|inversion H; subst; split; [exact SF|split; [exact Hi|exact St]]].
    destruct (_undo_action env w s) as [[w1|e] s1] eqn:E;
      [|discriminate]. inversion H; subst; cbn [fst] in *.
    pose proof (undo_same_inputs env _ _ _ _ E) as (Wk & _).
    apply undo_fields in E. destruct E as (A & B & C & T).
    destruct Hi as (H1 & H2 & H3 & H4 & H5).
    apply andb_prop in P. destruct P as [P _].
    assert (Wn : workers w = []).
    { destruct (workers w) eqn:W; [reflexivity|].
      destruct H5 as [_ F]; [discriminate|congruence]. }
    split; [exact SF'|]. split.
    + unfold history_inv. rewrite A, C, Wk.
      destruct T as [[-> ->]|(L & -> & ->)].
      * split; [exact H1|]. split; [exact H2|]. split; [exact H3|].
        split; [exact H4|exact H5].
      * split.
        { destruct H1 as (rest & R). rewrite R in *. cbn in L.
          rewrite removelast_head by (destruct rest; [cbn in L; lia|discriminate]).
          eexists. reflexivity. }
        split; [apply Forall_removelast, H2|].
        split; [intros c Ec; congruence|].
        split; [discriminate|intros N; contradiction].
    + unfold status_inv in *. rewrite Wk, B. exact St.
  - destruct (workers w) as [|job rest] eqn:W; [discriminate|].
    pose proof (run_job_role w chain job) as Ro.
    destruct (run_job w chain job) as [[message role] enhanced].
    cbn in Ro. subst role.
    destruct (_update_gui_from_thread_any _ _ _ _ s) as [[w1|e] s1] eqn:E0;
      [|discriminate].
    apply hand_over_ok in E0. destruct E0 as (suggestion & E). inversion H; subst; cbn [fst] in *.
    pose proof (update_gui_inputs _ _ _ _ _ _ _ E) as (Wk & _).
    cbn in Wk.
    assert (R : rest = []).
    { destruct SF as (L & _). rewrite W in L.
      destruct rest; [reflexivity|cbn in L; lia]. }
    rewrite R in *. clear R.
    apply update_gui_fields in E. cbn in E.
    destruct E as (A & (shown & B & Sh) & T).
    destruct Hi as (H1 & H2 & H3 & H4 & H5).
    destruct H5 as [En Pf]; [rewrite W; discriminate|].
    split; [exact SF'|]. split.
    + unfold history_inv. rewrite A, Wk.
      destruct T as [(-> & -> & ->)|(new & Ne & -> & -> & [->|[-> Ec]])].
      * split; [exact H1|]. split; [exact H2|]. split; [exact H3|].
        split; [exact H4|intros N; contradiction].
      * split; [destruct H1 as (r & ->); eexists; reflexivity|].
        split; [apply Forall_snoc; assumption|].
        split; [intros c Ec; rewrite last_last; congruence|].
        split; [discriminate|intros N; contradiction].
      * congruence.
    + unfold status_inv in *. rewrite Wk, W in *.
      destruct St as (turns & C & F). rewrite B, C, removelast_last.
      apply Forall_app. auto.
  - destruct (timers s) as [|[text original] rest]; [discriminate|].
    inversion H; subst; split; [exact SF|split; [exact Hi|exact St]].
  - inversion H; subst; split; [exact SF|split; [exact Hi|exact St]].
Qed.

Lemma run_keeps_session_inv evs st st' :
  session_inv (fst st) -> run env evs st = Some st' -> session_inv (fst st').
Proof.
  revert st. induction evs as [|ev evs IH]; intros st I H; simpl in H.
  - inversion H; subst; exact I.
  - destruct (dispatch env ev st) as [st1|] eqn:E; [|discriminate].
    eapply IH; [eapply dispatch_keeps_session_inv; eauto|exact H].
Qed.


(** X9. The status placeholder is shown exactly while a worker is out, once and
    as the last message; as soon as the result is handed back no status
    message is left. *)
Theorem status_placeholder_follows_the_worker initial source s0 evs w s :
  initial <> "" ->
  run env evs (__init__ initial source, s0) = Some (w, s) ->
  match pipeline_state w with
  | Idle => Forall not_status (chat_display w)
  | AwaitingResponse =>
      exists turns,
        chat_display w = (turns ++ [("status", "Thinking...")])%list
        /\ Forall not_status turns
  end.
Proof.
  intros N R.
  pose proof (run_keeps_session_inv evs (__init__ initial source, s0) (w, s)
                (init_session_inv initial source N) R) as (_ & _ & H).
  cbn [fst] in H. unfold status_inv in H. unfold pipeline_state.
  destruct (workers w); exact H.
Qed.


(** X11. Which worker the first message starts depends on the text of the
    message itself: the prompt carries the selected text unless the message
    contains ["AI:"], which the handler takes for an earlier reply. *)
Theorem first_message_with_marker_skips_the_selection initial source message :
  Str.strip message <> "" ->
  workers (_send_message_event (set_user_input message (__init__ initial source)))
  = [if Str.contains "AI:" (Str.strip message)
     then get_ai_response (Str.strip message)
     else get_initial_response (Str.strip message)].
Proof.
  intros N. unfold _send_message_event.
  cbn [user_input set_user_input __init__].
  rewrite (nonempty_truthy _ N). cbn [negb].
  unfold no_reply_yet. cbn -[Str.contains Str.strip].
  assert (C : forall t,
             Str.contains "AI:"
               (String "Y" (String "o" (String "u" (String ":" (String " " t)))))
             = Str.contains "AI:" t) by (intros; reflexivity).
  rewrite C.
  destruct (Str.contains "AI:" (Str.strip message)); reflexivity.
Qed.







(** X25. Undo takes back a suggestion: after a suggestion has arrived for a
    pending question, one undo leaves the history as it was before and makes
    its top the current content again. *)
Theorem undo_reverts_a_suggestion message new_content w s w1 s1 w2 s2 :
  enhanced_content w = None -> text_stack w <> [] -> new_content <> "" ->
  categorized message = false ->
  _update_gui_from_thread message "assistant" (Some new_content) w s
  = (Ok w1, s1) ->
  _undo_action env w1 s1 = (Ok w2, s2) ->
  text_stack w1 = (text_stack w ++ [new_content])%list
  /\ text_stack w2 = text_stack w
  /\ enhanced_content w2 = Some (last (text_stack w) "").
Proof.
  intros En Ns Nn Cat U Z.
  destruct (suggestion_after_submit_is_appended message new_content w s Nn Cat En)
    as (w1' & E & T).
  rewrite E in U. inversion U; subst w1' s1; clear U.
  split; [exact T|].
  assert (L : 1 < length (text_stack w1)).
  { rewrite T, length_app. cbn. destruct (text_stack w); [congruence|cbn; lia]. }
  destruct (undo_pops _ _ _ _ L Z) as (A & B).
  rewrite A, B, T, removelast_last. auto.
Qed.

End SessionMore.

(** ** Previews and placement *)

Section PreviewProofs.
Import ChatWindow Placement Observe.

Lemma length_app_string a b :
  String.length (a ++ b) = String.length a + String.length b.
Proof. induction a; simpl; auto. Qed.

Lemma length_take n s : String.length (Str.take n s) <= n.
Proof.
  unfold Str.take. revert s. induction n as [|n IH]; intros s.
  - destruct s; simpl; lia.
  - destruct s; simpl; [lia|]. specialize (IH s). lia.
Qed.

Lemma has_char_app c a b :
  has_char c (a ++ b) = has_char c a || has_char c b.
Proof.
  induction a; simpl; [reflexivity|]. rewrite IHa. apply orb_assoc.
Qed.

Lemma has_char_take c n s :
  has_char c s = false -> has_char c (Str.take n s) = false.
Proof.
  unfold Str.take. revert s. induction n as [|n IH]; intros s H.
  - destruct s; reflexivity.
  - destruct s; simpl in *; [reflexivity|].
    apply orb_false_iff in H. destruct H as [H1 H2].
    rewrite H1, (IH _ H2). reflexivity.
Qed.

Lemma has_char_first_line s :
  has_char "010" (fst (Str.split1 "010" s)) = false.
Proof.
  induction s as [|x s IH]; simpl; [reflexivity|].
  destruct (Ascii.eqb x "010") eqn:E; [reflexivity|].
  destruct (Str.split1 "010" s). simpl in *. rewrite E, IH. reflexivity.
Qed.

Lemma has_char_replaced s :
  has_char "010" (Str.replace "010" " " s) = false.
Proof.
  induction s as [|x s IH]; simpl; [reflexivity|].
  destruct (Ascii.eqb x "010") eqn:E; simpl; [exact IH|].
  rewrite E, IH. reflexivity.
Qed.

(** X12. The summary of the selection shown in the window is a single line of at
    most 50 characters, whatever was selected. *)
Theorem context_preview_is_one_short_line initial_text :
  String.length (context_preview initial_text) <= 50
  /\ has_char "010" (context_preview initial_text) = false.
Proof.
  unfold context_preview.
  set (line := fst (Str.split1 "010" (Str.strip initial_text))).
  pose proof (has_char_first_line (Str.strip initial_text)) as L. fold line in L.
  destruct (50 <? String.length line)%nat eqn:C.
  - split.
    + rewrite length_app_string. pose proof (length_take 47 line). simpl. lia.
    + rewrite has_char_app, (has_char_take _ 47 _ L). reflexivity.
  - apply Nat.ltb_ge in C. auto.
Qed.

(** X13. The label above the paste button is a single line of at most 70
    characters, whatever the content to paste. *)
Theorem paste_preview_is_one_short_line w s w' s' :
  _update_paste_preview w s = (Ok w', s') ->
  String.length (paste_preview w') <= 70
  /\ has_char "010" (paste_preview w') = false.
Proof.
  unfold _update_paste_preview.
  destruct (enhanced_content w) as [content|]; [|discriminate].
  intros H; inversion H; subst; clear H. cbn [paste_preview set_paste_preview].
  set (p := Str.take 60 (Str.replace "010" " " (Str.strip content))).
  assert (Lp : String.length p <= 60) by apply length_take.
  assert (Np : has_char "010" p = false)
    by (apply has_char_take, has_char_replaced).
  destruct (60 <? String.length content)%nat; cbn [String.length has_char];
    rewrite ?length_app_string, ?has_char_app, ?Np; simpl; split;
    try reflexivity; lia.
Qed.

(** X14. With the cursor on a screen of at least 300 by 340 pixels, and not
    more than 20 pixels right of it, the window is placed entirely on the
    screen. *)
Theorem window_is_placed_on_the_screen mouse_x mouse_y ww wh wsw wsh
    screen_width screen_height :
  (300 <= screen_width)%Z -> (340 <= screen_height)%Z ->
  (mouse_x <= screen_width + 20)%Z ->
  let position :=
    _calculate_window_position (Some mouse_x) (Some mouse_y) ww wh wsw wsh
      (screen_width, screen_height) in
  (0 <= fst position /\ fst position + 300 <= screen_width
   /\ 0 <= snd position /\ snd position + 300 <= screen_height)%Z.
Proof.
  intros Hw Hh Hm. unfold _calculate_window_position. cbn [fst snd].
  change (300 / 2)%Z with 150%Z.
  pose proof (Z.div_pos (screen_width - 300) 2) as D1.
  pose proof (Z.mul_div_le (screen_width - 300) 2) as D2.
  destruct (mouse_x + 20 + 300 >? screen_width)%Z eqn:A;
    [destruct (mouse_x - 300 - 20 <? 0)%Z eqn:B
    |destruct (mouse_x + 20 <? 0)%Z eqn:B];
    (destruct (mouse_y - 150 <? 0)%Z eqn:C;
     [destruct (10 + 300 >? screen_height)%Z eqn:D
     |destruct (mouse_y - 150 + 300 >? screen_height)%Z eqn:D]);
    cbn [fst snd]; lia.
Qed.

End PreviewProofs.

(** ** The model service and the parser *)

Section ReplyProofs.
Import ChatWindow Session LlmService Observe.

Lemma rstrip_keeps_nonspace c s :
  Str.is_space c = false -> Str.rstrip (String c s) <> "".
Proof.
  intros H. simpl. destruct (Str.rstrip s); [rewrite H|]; discriminate.
Qed.

Lemma strip_starts_nonspace c s :
  Str.is_space c = false -> Str.strip (String c s) <> "".
Proof.
  intros H. unfold Str.strip. simpl. rewrite H.
  apply rstrip_keeps_nonspace, H.
Qed.

Lemma error_reply_not_blank e : Str.strip (error_reply e) <> "".
Proof.
  unfold error_reply.
  destruct (mentions_auth _); [vm_compute; intros H; discriminate H|].
  destruct (mentions_connection _); [vm_compute; intros H; discriminate H|].
  destruct (mentions_no_response _); [vm_compute; intros H; discriminate H|].
  apply strip_starts_nonspace. reflexivity.
Qed.

(** X15. Whatever the model service does, [invoke_chain] hands back a text that
    is not blank: the reply itself, or one of the error texts. *)
Theorem invoke_chain_is_never_blank chain user_input :
  Str.strip (invoke_chain chain user_input) <> ""
  /\ invoke_chain chain user_input <> "".
Proof.
  assert (S : Str.strip (invoke_chain chain user_input) <> "").
  { unfold invoke_chain. destruct (chain user_input) as [r|e].
    - destruct (negb (Str.truthy r) || (Str.strip r =? "")) eqn:B.
      + apply error_reply_not_blank.
      + apply orb_false_iff in B. destruct B as [_ B].
        apply String.eqb_neq in B. exact B.
    - apply error_reply_not_blank. }
  split; [exact S|]. intros E. rewrite E in S. apply S. reflexivity.
Qed.

(** X16. An empty or blank reply of the model service is reported as a missing
    response. *)
Theorem blank_reply_is_a_missing_response chain user_input reply :
  chain user_input = Ok reply -> Str.strip reply = "" ->
  invoke_chain chain user_input
  = "NO_RESPONSE_ERROR: No response received from the LLM service. The service might be experiencing high load.".
Proof.
  intros C B. unfold invoke_chain. rewrite C, B.
  rewrite orb_true_r. reflexivity.
Qed.

Lemma list_string_inverse s :
  string_of_list_ascii (list_ascii_of_string s) = s.
Proof. apply string_of_list_ascii_of_string. Qed.

(** A literal does not match where the text does not start with it. *)
Lemma literal_needs_prefix {A} p (l : list ascii) g
    (k : list ascii -> Re.caps -> option A) :
  prefix p (string_of_list_ascii l) = false -> Re.run (Re.Lit p) l g k = None.
Proof.
  revert l k. induction p as [|c p IH]; intros l k H.
  - destruct l; discriminate H.
  - destruct l as [|x l]; [reflexivity|]. simpl in *.
    destruct (ascii_dec c x) as [->|N].
    + rewrite Ascii.eqb_refl. apply IH, H.
    + destruct (Ascii.eqb_spec x c); [congruence|reflexivity].
Qed.

Lemma no_fence_no_match text skipped :
  Str.contains "```json" text = false ->
  Re.search_from json_pattern skipped (list_ascii_of_string text) = None.
Proof.
  revert skipped. induction text as [|a text IH]; intros skipped H.
  - reflexivity.
  - cbn [Str.contains] in H.
    destruct (prefix "```json" (String a text)) eqn:P; [discriminate|].
    cbn [list_ascii_of_string Re.search_from].
    assert (M : Re.match_at json_pattern (a :: list_ascii_of_string text) = None).
    { unfold Re.match_at, json_pattern. cbn [Re.run].
      apply literal_needs_prefix. simpl string_of_list_ascii.
      rewrite list_string_inverse. exact P. }
    rewrite M. apply IH, H.
Qed.

Lemma extract_without_fence text :
  Str.contains "```json" text = false ->
  _extract_enhanced_content text = (text, None).
Proof.
  intros H. unfold _extract_enhanced_content, Re.search.
  rewrite (no_fence_no_match text [] H). reflexivity.
Qed.

(** X17. A reply without the opening fence is displayed as it is and yields no
    suggestion. *)
Theorem reply_without_fence_is_unchanged text :
  Str.contains "```json" text = false ->
  _extract_enhanced_content text = (text, None).
Proof. exact (extract_without_fence text). Qed.

Section InBand.
Variable env : Env.

Lemma run_job_reply w reply job :
  Str.truthy reply = true -> Str.strip reply <> "" ->
  run_job w (fun _ => Ok reply) job
  = (let (cleaned_text, enhanced) := _extract_enhanced_content reply in
     (cleaned_text, "assistant", enhanced)).
Proof.
  intros T B. apply String.eqb_neq in B.
  destruct job; cbn [run_job]; unfold _get_initial_response, _get_ai_response,
    invoke_chain; rewrite T, B; reflexivity.
Qed.

Lemma prefixed_reply_turns reply title text w s job others :
  workers w = job :: others ->
  Str.truthy reply = true -> Str.strip reply <> "" ->
  Str.contains "```json" reply = false ->
  (forall self s0,
      _update_gui_from_thread reply "assistant" None self s0
      = (Ok (_set_input_state normal
               (_append_to_chat text "error"
                  (_append_to_chat (warning_sign ++ " " ++ title) "error_title"
                     (_remove_last_message self)))), s0)) ->
  reply_turns env (fun _ => Ok reply) (w, s) = Some (error_turns title text).
Proof.
  intros W T B F U. unfold reply_turns. cbn [dispatch]. rewrite W.
  rewrite (run_job_reply w reply job T B), (extract_without_fence reply F).
  cbn [_update_gui_from_thread_any]. rewrite U. cbn [finish fst]. f_equal.
  cbn [chat_display _set_input_state set_send_button_state
       set_user_input_state _append_to_chat set_chat_display
       _remove_last_message set_workers].
  rewrite <- app_assoc. apply skipn_front.
Qed.

(** X18. Errors travel in the reply itself: a genuine reply of the model that
    happens to begin with one of the three error prefixes is not shown as a
    reply but as an error of that category, with the rest of the reply as
    its message. *)
Theorem reply_with_error_prefix_is_shown_as_error marker title rest w s
    job others :
  In (marker, title) error_prefixes ->
  workers w = job :: others ->
  Str.contains "```json" (marker ++ rest) = false ->
  reply_turns env (fun _ => Ok (marker ++ rest)) (w, s)
  = Some (error_turns title (Str.strip rest)).
Proof.
  intros I W F. unfold error_prefixes in I. cbn [In] in I.
  destruct I as [I|[I|[I|[]]]]; inversion I; subst marker title; clear I;
    (apply prefixed_reply_turns with (job := job) (others := others);
     [exact W|reflexivity|apply strip_starts_nonspace; reflexivity|exact F|];
     intros self s0; unfold _update_gui_from_thread;
     match goal with |- context [categorized ?m] =>
       replace (categorized m) with true
         by (unfold categorized, Str.startswith; simpl; destruct rest;
             reflexivity)
     end; reflexivity).
Qed.

End InBand.
End ReplyProofs.

(** ** Configuration *)

Section ConfigProofs.
Import Config.
Variable number_truthy : string -> bool.

Lemma nothing_missing data :
  missing_keys number_truthy data EXPECTED_KEYS = Ok [] ->
  complete number_truthy (mkState (Loaded data) true).
Proof.
  unfold EXPECTED_KEYS. cbn [missing_keys].
  destruct data as [| | | |items|members]; cbn [missing]; try discriminate.
  - destruct (Str.contains _ _); [discriminate|].
    destruct (Str.contains _ _); discriminate.
  - destruct (existsb _ items); [discriminate|].
    destruct (existsb _ items); discriminate.
  - destruct (Json.lookup "GROQ_API_KEY" members) as [key|] eqn:K;
      destruct (Json.lookup "SNIPAI_HOTKEY" members) as [hotkey|] eqn:H;
      try discriminate;
      try (destruct (truthy number_truthy key) eqn:TK); try (destruct (truthy number_truthy hotkey) eqn:TH);
      try discriminate.
    intros _. exists members, key, hotkey. auto.
Qed.

Lemma load_cases file st :
  (_config_loaded_successfully st = true -> complete number_truthy st) ->
  let (loaded, st') := _load_config number_truthy file st in
  (loaded = true /\ _config_loaded_successfully st' = true /\ complete number_truthy st')
  \/ (loaded = false /\ st' = mkState LoadFailed false).
Proof.
  intros I. unfold _load_config.
  destruct (_config_loaded_successfully st) eqn:F; [left; auto|].
  assert (final : forall file0,
    let (loaded, st') :=
      match file0 with
      | Raised _ => (false, mkState LoadFailed false)
      | Ok content =>
          match Json.loads content with
          | None => (false, mkState LoadFailed false)
          | Some data =>
              match missing_keys number_truthy data EXPECTED_KEYS with
              | Ok [] => (true, mkState (Loaded data) true)
              | _ => (false, mkState LoadFailed false)
              end
          end
      end in
    (loaded = true /\ _config_loaded_successfully st' = true /\ complete number_truthy st')
    \/ (loaded = false /\ st' = mkState LoadFailed false)).
  { intros [content|e]; [|right; auto].
    destruct (Json.loads content) as [data|]; [|right; auto].
    destruct (missing_keys number_truthy data EXPECTED_KEYS) as [[|k l]|e] eqn:M;
      [left|right; auto|right; auto].
    split; [reflexivity|]. split; [reflexivity|]. apply nothing_missing, M. }
  destruct st as [cache flag]. cbn in F. subst flag. cbn [_config_cache].
  destruct cache; [apply final|right; auto|apply final].
Qed.

Lemma loads_keep_complete files st :
  (_config_loaded_successfully st = true -> complete number_truthy st) ->
  _config_loaded_successfully (loads number_truthy files st) = true ->
  complete number_truthy (loads number_truthy files st).
Proof.
  revert st. induction files as [|file files IH]; intros st I; cbn [loads].
  - exact I.
  - apply IH. pose proof (load_cases file st I) as C.
    destruct (_load_config number_truthy file st) as [loaded st']. cbn [snd].
    destruct C as [(_ & _ & C)|(_ & ->)]; [auto|discriminate].
Qed.

Lemma get_value_loaded key file st members v :
  _config_loaded_successfully st = true ->
  _config_cache st = Loaded (Json.Object members) ->
  Json.lookup key members = Some v -> truthy number_truthy v = true ->
  get_value number_truthy key file st = (Ok v, st).
Proof.
  intros F C L T. unfold get_value, _load_config, cache_get.
  rewrite F, C, L, T. reflexivity.
Qed.

(** X19. A failed load is final: afterwards the file is not looked at again, and
    both accessors raise whatever the file holds by then. *)
Theorem failed_configuration_is_final file st st' :
  _load_config number_truthy file st = (false, st') ->
  forall later,
    _load_config number_truthy later st' = (false, st')
    /\ (exists e, get_groq_api_key number_truthy later st' = (Raised e, st'))
    /\ (exists e, get_hotkey number_truthy later st' = (Raised e, st')).
Proof.
  intros L later.
  assert (S : _config_loaded_successfully st' = false
              /\ _config_cache st' = LoadFailed).
  { unfold _load_config in L.
    destruct (_config_loaded_successfully st) eqn:F; [discriminate|].
    destruct st as [cache flag].
    cbn [_config_cache _config_loaded_successfully] in *. subst flag.
    destruct cache; [|inversion L; subst; auto|];
      (destruct file as [content|e]; [|inversion L; subst; auto];
       destruct (Json.loads content) as [decoded|];
         [|inversion L; subst; auto];
       destruct (missing_keys number_truthy decoded EXPECTED_KEYS)
         as [[|k l]|e]; inversion L; subst; auto). }
  destruct S as [F C].
  assert (A : _load_config number_truthy later st' = (false, st')).
  { unfold _load_config. rewrite F, C. reflexivity. }
  split; [exact A|].
  unfold get_groq_api_key, get_hotkey, get_value. rewrite A. eauto.
Qed.

(** X20. A successful load is final as well: from then on both accessors return
    the values read at that time, which are set, and the file is not looked
    at again. *)
Theorem loaded_configuration_is_cached files file st' :
  _load_config number_truthy file (loads number_truthy files initial) = (true, st') ->
  exists key hotkey,
    truthy number_truthy key = true /\ truthy number_truthy hotkey = true
    /\ forall later,
         _load_config number_truthy later st' = (true, st')
         /\ get_groq_api_key number_truthy later st' = (Ok key, st')
         /\ get_hotkey number_truthy later st' = (Ok hotkey, st').
Proof.
  intros L.
  set (st := loads number_truthy files initial) in *.
  assert (I : _config_loaded_successfully st = true -> complete number_truthy st).
  { apply loads_keep_complete. cbn. discriminate. }
  pose proof (load_cases file st I) as C. rewrite L in C.
  destruct C as [(_ & F & (members & key & hotkey & Ca & K & TK & H & TH))
                |(D & _)]; [|discriminate].
  exists key, hotkey. split; [exact TK|]. split; [exact TH|].
  intros later. split; [unfold _load_config; rewrite F; reflexivity|].
  split; eapply get_value_loaded; eauto.
Qed.

(** X21. The first load succeeds exactly when the file decodes to an object in
    which both keys are present with a value that counts as true; any other
    decoded value, such as a list or a string, is refused. *)
Theorem configuration_loads_iff_complete content :
  fst (_load_config number_truthy (Ok content) initial) = true
  <-> exists members key hotkey,
        Json.loads content = Some (Json.Object members)
        /\ Json.lookup "GROQ_API_KEY" members = Some key
        /\ truthy number_truthy key = true
        /\ Json.lookup "SNIPAI_HOTKEY" members = Some hotkey
        /\ truthy number_truthy hotkey = true.
Proof.
  unfold _load_config, initial.
  cbn [_config_cache _config_loaded_successfully]. split.
  - destruct (Json.loads content) as [data|]; [|discriminate].
    destruct (missing_keys number_truthy data EXPECTED_KEYS) as [[|k l]|e] eqn:M;
      try discriminate.
    intros _. apply nothing_missing in M.
    destruct M as (members & key & hotkey & C & K). cbn in C.
    inversion C; subst. exists members, key, hotkey. auto.
  - intros (members & key & hotkey & -> & K & TK & H & TH).
    unfold EXPECTED_KEYS. cbn [missing_keys missing].
    rewrite K, H, TK, TH. reflexivity.
Qed.

End ConfigProofs.

(** ** The hotkey *)

Section HotkeyProofs.
Import HotkeyManager.
Variable callback_function : M unit.

Lemma trigger_cases h s :
  (_hotkey_pressed h = true
   /\ debounced_function callback_function h s = (Ok h, s))
  \/ (_hotkey_pressed h = false
      /\ debounced_function callback_function h s
         = (Ok (mkState true (S (reset_timers h))),
            snd (callback_function s))).
Proof.
  unfold debounced_function. destruct (_hotkey_pressed h); [left; auto|right].
  split; [reflexivity|]. unfold bind, try_except, ret.
  destruct (callback_function s) as [[[]|e] s1]; reflexivity.
Qed.

Lemma run_counts evs h0 s0 h s :
  debounce_inv h0 ->
  run callback_function evs (h0, s0) = Some (h, s) ->
  debounce_inv h
  /\ exists calls,
       calls + reset_timers h0 = length (filter is_reset evs) + reset_timers h
       /\ s = after_calls callback_function calls s0.
Proof.
  revert h0 s0. induction evs as [|ev evs IH]; intros h0 s0 I R.
  - inversion R; subst. split; [exact I|]. exists 0. cbn. split; [lia|auto].
  - cbn [run] in R.
    destruct (dispatch callback_function ev (h0, s0)) as [[h1 s1]|] eqn:D;
      [|discriminate].
    destruct ev; cbn [dispatch] in D.
    + destruct (trigger_cases h0 s0) as [(P & E)|(P & E)];
        rewrite E in D; inversion D; subst; clear D.
      * destruct (IH _ _ I R) as (I' & calls & C & A). split; [exact I'|].
        exists calls. cbn. auto.
      * destruct I as [(P' & _)|(_ & T)]; [congruence|].
        assert (I1 : debounce_inv (mkState true (S (reset_timers h0)))).
        { left. cbn. rewrite T. auto. }
        destruct (IH _ _ I1 R) as (I' & calls & C & A). split; [exact I'|].
        exists (S calls). cbn in *. split; [lia|exact A].
    + destruct (reset_timers h0) as [|n] eqn:T; [discriminate|].
      inversion D; subst; clear D.
      destruct I as [(_ & T')|(_ & T')]; [|congruence].
      assert (n = 0) by congruence. subst n.
      assert (I1 : debounce_inv
                     (mkState (_hotkey_pressed (_reset_hotkey_flag h0)) 0)).
      { right. cbn. auto. }
      destruct (IH _ _ I1 R) as (I' & calls & C & A). split; [exact I'|].
      exists calls. cbn in *. split; [lia|exact A].
Qed.

(** X22. Debouncing: over any series of triggers and timer expiries, the
    surroundings are as the callback leaves them when called once for each
    reset timer that has expired and once more if one is pending, and at
    most one is; the flag is set exactly while a reset is pending, so it
    cannot stay set; a trigger while the flag is set changes nothing; and a
    trigger never raises, even when the callback does. *)
Theorem hotkey_is_debounced evs s0 h s :
  run callback_function evs (initial, s0) = Some (h, s) ->
  s = after_calls callback_function
        (length (filter is_reset evs) + reset_timers h) s0
  /\ reset_timers h <= 1
  /\ (_hotkey_pressed h = true <-> reset_timers h = 1)
  /\ (forall h1 s1, _hotkey_pressed h1 = true ->
      dispatch callback_function Trigger (h1, s1) = Some (h1, s1))
  /\ (forall h1 s1, _hotkey_pressed h1 = false ->
      dispatch callback_function Trigger (h1, s1)
      = Some (mkState true (S (reset_timers h1)), snd (callback_function s1))).
Proof.
  intros R.
  assert (I0 : debounce_inv initial) by (right; auto).
  destruct (run_counts evs initial s0 h s I0 R) as (I & calls & C & A).
  cbn in C. rewrite Nat.add_0_r in C. subst calls.
  split; [exact A|].
  split; [destruct I as [(_ & ->)|(_ & ->)]; lia|].
  split; [destruct I as [(P & T)|(P & T)]; rewrite P, T; split; congruence|].
  split; intros h1 s1 P; cbn [dispatch];
    destruct (trigger_cases h1 s1) as [(P' & E)|(P' & E)];
    try congruence; rewrite E; reflexivity.
Qed.

End HotkeyProofs.

(** ** The entry point *)

Section MainProofs.
Import ClipboardHandler ChatWindow Main Observe.
Variable env : Env.

Lemma capture_result s :
  exists r s',
    get_selected_text_via_copy env s = (Ok r, s')
    /\ r <> Some ""
    /\ ((forall s0, raises env PyperclipPaste s0 = None) ->
        (forall s0, raises env (PyperclipCopy (clipboard s)) s0 = None) ->
        clipboard s' = clipboard s).
Proof.
  unfold get_selected_text_via_copy, try_finally. unfold bind at 1.
  destruct (_save_clipboard env s) as [[saved|e] s0] eqn:E0.
  2:{ exfalso. destruct (save_returns env s) as (a & b & E & _). congruence. }
  destruct (guarded_loop_returns env saved s0) as (r & s1 & E1 & O1).
  rewrite E1.
  assert (N : r <> Some "").
  { pose proof (loop_never_empty env saved (methods env) s0) as N.
    unfold try_except in E1.
    destruct (try_methods env saved (methods env) s0) as [[r0|e] s2];
      inversion E1; subst; [intros C; apply N; cbn; congruence|discriminate]. }
  pose proof (restore_returns env s1) as Rr.
  destruct (_restore_clipboard env s1) as [[[]|e] s2] eqn:E2;
    cbn in Rr; [|discriminate].
  exists r, s2. split; [reflexivity|]. split; [exact N|].
  intros Hread Hwrite. rewrite (save_readable env s (Hread s)) in E0.
  inversion E0; subst saved s0; clear E0.
  destruct (restore_recorded env s1 (clipboard s) O1 (Hwrite s1))
    as (s3 & E3 & C3).
  congruence.
Qed.

(** X23. The hotkey callback never raises. It opens a chat window exactly
    when the capture, made right after the look at the active window,
    returns a text and the pointer position can be read; the capture never
    returns an empty text. The window is opened on the captured text, which
    is the whole of its edit history, with the window that was active as its
    source window, or none if that look raised. The clipboard is left as it
    was found whenever it can be read and written. *)
Theorem popup_opens_only_on_a_selection position s :
  let active :=
    match raises env GetActiveWindow s with
    | Some _ => None
    | None => foreground s
    end in
  exists captured s',
    get_selected_text_via_copy env (log GetActiveWindow s) = (Ok captured, s')
    /\ captured <> Some ""
    /\ trigger_chat_popup env position s
       = (Ok match captured, position with
             | Some text, Ok _ => Some (__init__ text active)
             | _, _ => None
             end, s')
    /\ (forall text, captured = Some text ->
        text_stack (__init__ text active) = [text]
        /\ source_window (__init__ text active) = active
        /\ session_inv (__init__ text active))
    /\ ((forall s0, raises env PyperclipPaste s0 = None) ->
        (forall s0, raises env (PyperclipCopy (clipboard s)) s0 = None) ->
        clipboard s' = clipboard s).
Proof.
  intros active.
  assert (E0 : try_except (getActiveWindow env) (fun _ => ret None) s
               = (Ok active, log GetActiveWindow s)).
  { unfold try_except, getActiveWindow, ret, active.
    destruct (raises env GetActiveWindow s); reflexivity. }
  destruct (capture_result (log GetActiveWindow s)) as (r & s1 & E1 & N & K).
  cbn [clipboard log] in K.
  exists r, s1. split; [exact E1|]. split; [exact N|].
  split.
  { unfold trigger_chat_popup.
    unfold try_except at 1. unfold bind at 1. rewrite E0.
    unfold bind at 1. rewrite E1.
    destruct r as [text|]; [|reflexivity].
    replace (Str.truthy text) with true
      by (destruct text; [congruence|reflexivity]).
    destruct position as [xy|e]; reflexivity. }
  split; [|exact K].
  intros text C. split; [reflexivity|]. split; [reflexivity|].
  apply init_session_inv. intros Z. apply N. congruence.
Qed.

End MainProofs.

(** ** The further properties at work on concrete runs *)

Section MoreWitnesses.
Import ClipboardHandler ChatWindow Session Placement Observe Examples
  MoreExamples.

Lemma quiet_is_reliable : reliable quiet.
Proof. intros c s. reflexivity. Qed.

Lemma quiet_is_undisturbed : undisturbed quiet.
Proof. intros c s. reflexivity. Qed.

Lemma paste_returns_focus_witness :
  foreground (snd (_apply_text_to_source_window quiet (__init__ "A" (Some 1))
                     "new" "Pasted" (desktop "old")))
  = Some 7.
Proof.
  apply (paste_returns_focus quiet (__init__ "A" (Some 1)) "new" "Pasted"
           (desktop "old"));
    [vm_compute; reflexivity|reflexivity].
Defined.

Lemma paste_then_timer_restores_witness :
  let s1 := snd (_apply_text_to_source_window quiet (__init__ "A" (Some 1))
                   "new" "Pasted" (desktop "old")) in
  timers s1 = (timers (desktop "old") ++ [("new", clipboard (desktop "old"))])%list
  /\ clipboard s1 = "new"
  /\ clipboard (snd (restore_clipboard quiet "new" (clipboard (desktop "old")) s1))
     = clipboard (desktop "old").
Proof.
  apply (paste_then_timer_restores quiet quiet_is_reliable quiet_is_undisturbed
           (__init__ "A" (Some 1)) "new" "Pasted" 1 (desktop "old"));
    [discriminate|reflexivity].
Defined.

Lemma second_paste_loses_the_original_witness :
  let s1 := snd (_apply_text_to_source_window quiet (__init__ "A" (Some 1))
                   "one" "Pasted" (desktop "old")) in
  let s2 := snd (_apply_text_to_source_window quiet (__init__ "A" (Some 1))
                   "two" "Pasted" s1) in
  timers s2
  = (timers (desktop "old")
     ++ [("one", clipboard (desktop "old")); ("two", "one")])%list
  /\ let s3 := snd (restore_clipboard quiet "one" (clipboard (desktop "old")) s2) in
     let s4 := snd (restore_clipboard quiet "two" "one" s3) in
     clipboard s4 = "one".
Proof.
  apply (second_paste_loses_the_original quiet quiet_is_reliable
           quiet_is_undisturbed (__init__ "A" (Some 1)) "one" "two" "Pasted" 1
           (desktop "old"));
    [discriminate|discriminate|discriminate|reflexivity].
Defined.

Lemma awaiting_is_reached :
  run quiet [Type_text "q1"; Press_return] (__init__ "A" (Some 1), desktop "old")
  = Some (fst awaiting, snd awaiting).
Proof. vm_compute. reflexivity. Qed.


Lemma status_placeholder_witness :
  match pipeline_state (fst awaiting) with
  | Idle => Forall not_status (chat_display (fst awaiting))
  | AwaitingResponse =>
      exists turns,
        chat_display (fst awaiting)
        = (turns ++ [("status", "Thinking...")])%list
        /\ Forall not_status turns
  end.
Proof.
  apply (status_placeholder_follows_the_worker quiet "A" (Some 1)
           (desktop "old") [Type_text "q1"; Press_return] (fst awaiting)
           (snd awaiting));
    [discriminate|vm_compute; reflexivity].
Defined.


Lemma first_message_witness :
  workers (_send_message_event
             (set_user_input "is AI: a word?" (__init__ "A" (Some 1))))
  = [if Str.contains "AI:" (Str.strip "is AI: a word?")
     then get_ai_response (Str.strip "is AI: a word?")
     else get_initial_response (Str.strip "is AI: a word?")].
Proof.
  apply (first_message_with_marker_skips_the_selection "A" (Some 1)
           "is AI: a word?").
  vm_compute. discriminate.
Defined.

Lemma paste_preview_witness :
  String.length (paste_preview (set_paste_preview "Paste: A" (__init__ "A" None)))
  <= 70
  /\ has_char "010"
       (paste_preview (set_paste_preview "Paste: A" (__init__ "A" None)))
     = false.
Proof.
  apply (paste_preview_is_one_short_line (__init__ "A" None) (desktop "old")
           (set_paste_preview "Paste: A" (__init__ "A" None)) (desktop "old")).
  reflexivity.
Defined.

Lemma window_placement_witness :
  let position :=
    _calculate_window_position (Some 1800%Z) (Some 1000%Z) 0%Z 0%Z 0%Z 0%Z
      (1920%Z, 1080%Z) in
  (0 <= fst position /\ fst position + 300 <= 1920
   /\ 0 <= snd position /\ snd position + 300 <= 1080)%Z.
Proof.
  apply (window_is_placed_on_the_screen 1800%Z 1000%Z 0%Z 0%Z 0%Z 0%Z
           1920%Z 1080%Z); lia.
Defined.

Lemma blank_reply_witness :
  LlmService.invoke_chain (fun _ => Ok "  ") "question"
  = "NO_RESPONSE_ERROR: No response received from the LLM service. The service might be experiencing high load.".
Proof.
  apply (blank_reply_is_a_missing_response (fun _ => Ok "  ") "question" "  ");
    reflexivity.
Defined.

Lemma reply_without_fence_witness :
  _extract_enhanced_content "It means hello." = ("It means hello.", None).
Proof.
  apply (reply_without_fence_is_unchanged "It means hello.").
  vm_compute. reflexivity.
Defined.

Lemma reply_with_error_prefix_witness :
  reply_turns quiet (fun _ => Ok ("CONNECTION_ERROR:" ++ " is what the log said"))
    (fst awaiting, snd awaiting)
  = Some (error_turns "CONNECTION ERROR" (Str.strip " is what the log said")).
Proof.
  apply (reply_with_error_prefix_is_shown_as_error quiet "CONNECTION_ERROR:"
           "CONNECTION ERROR" " is what the log said" (fst awaiting)
           (snd awaiting) (get_initial_response "q1") []).
  - right. left. reflexivity.
  - vm_compute. reflexivity.
  - vm_compute. reflexivity.
Defined.

Lemma failed_configuration_witness :
  Config._load_config always_true (Ok config_file)
    (Config.mkState Config.LoadFailed false)
  = (false, Config.mkState Config.LoadFailed false)
  /\ (exists e,
        Config.get_groq_api_key always_true (Ok config_file)
          (Config.mkState Config.LoadFailed false)
        = (Raised e, Config.mkState Config.LoadFailed false))
  /\ (exists e,
        Config.get_hotkey always_true (Ok config_file)
          (Config.mkState Config.LoadFailed false)
        = (Raised e, Config.mkState Config.LoadFailed false)).
Proof.
  apply (failed_configuration_is_final always_true (Raised "FileNotFoundError")
           Config.initial (Config.mkState Config.LoadFailed false) eq_refl
           (Ok config_file)).
Defined.

Lemma loaded_configuration_witness :
  exists key hotkey,
    Config.truthy always_true key = true
    /\ Config.truthy always_true hotkey = true
    /\ forall later,
         Config._load_config always_true later loaded_config
         = (true, loaded_config)
         /\ Config.get_groq_api_key always_true later loaded_config
            = (Ok key, loaded_config)
         /\ Config.get_hotkey always_true later loaded_config
            = (Ok hotkey, loaded_config).
Proof.
  apply (loaded_configuration_is_cached always_true [] (Ok config_file)
           loaded_config).
  vm_compute. reflexivity.
Defined.

Lemma hotkey_is_debounced_witness :
  HotkeyManager.run failing_callback keypresses
    (HotkeyManager.initial, desktop "old")
  = Some (HotkeyManager.mkState true 1,
          log GetActiveWindow (log GetActiveWindow (desktop "old")))
  /\ log GetActiveWindow (log GetActiveWindow (desktop "old"))
     = HotkeyManager.after_calls failing_callback
         (length (filter HotkeyManager.is_reset keypresses)
          + HotkeyManager.reset_timers (HotkeyManager.mkState true 1))
         (desktop "old").
Proof.
  split; [reflexivity|].
  apply (hotkey_is_debounced failing_callback keypresses (desktop "old")
           (HotkeyManager.mkState true 1)
           (log GetActiveWindow (log GetActiveWindow (desktop "old")))).
  reflexivity.
Defined.


Lemma undo_reverts_a_suggestion_witness :
  text_stack suggested_window = (text_stack (fst awaiting) ++ ["B"])%list
  /\ text_stack (value_of (fst awaiting) (fst undone)) = text_stack (fst awaiting)
  /\ enhanced_content (value_of (fst awaiting) (fst undone))
     = Some (last (text_stack (fst awaiting)) "").
Proof.
  apply (undo_reverts_a_suggestion quiet "Sure." "B" (fst awaiting)
           (snd awaiting) suggested_window (snd suggested)
           (value_of (fst awaiting) (fst undone)) (snd undone));
    try (vm_compute; reflexivity); vm_compute; discriminate.
Defined.

End MoreWitnesses.
